(** * X11 multi-window touch pointer system

    A shallow embedding of [PointerSystem]
    (External/X11TouchMultiWindow/X11TouchMultiWindowPointerSystem.cpp and .h):
    connection bootstrap, the window-to-handler registry, the event-queue
    drain loop and the window-tree walk that resolves the windows of a
    process.

    The C++ object state is a record; everything outside the object (the
    Xlib connection and its event queue, the C++ heap, the host's message
    sink, the handlers' inbox) is gathered in a [World] record that every
    operation threads explicitly.  Registry and heaps are stdpp finite
    maps. *)

From stdpp Require Import gmap strings list fin_maps pretty.

(** ** Native types *)

(** [Window] and [Atom] are XIDs ([unsigned long]); a [Display] is named by
    the identity of its connection; [Ptr] is a heap address and callbacks are
    code addresses.  No arithmetic is done on any of them. *)
Abbreviation Window := N (only parsing).
Abbreviation Display := N (only parsing).
Abbreviation Ptr := N (only parsing).
Abbreviation Callback := N (only parsing).

Definition NULL : Ptr := 0%N.

(** Constants of X.h, which the source uses by name. *)
Definition Success : Z := 0.
Definition BadRequest : Z := 1.
Definition GenericEvent : Z := 35.

(** Modelled from the spec: the closed result taxonomy of
    X11TouchMultiWindowCommon.h, which is not among the sources. *)
Inductive Result : Set :=
  | OK
  | ERROR_API
  | ERROR_DUPLICATE_ITEM
  | ERROR_NULL_POINTER.

(** Modelled from the spec: the severities of the message sink
    (X11TouchMultiWindowCommon.h is not among the sources). *)
Module MessageType.
Inductive t : Set := ERROR | WARNING.
End MessageType.

Record Message : Set := {
  sink : Callback;
  severity : MessageType.t;
  text : string
}.

(** [std::to_string] on an unsigned long and on an int. *)
Definition to_string_ulong (n : N) : string := pretty n.
Definition to_string_int (z : Z) : string := pretty z.

(** Modelled from the spec: the per-window handler of
    X11TouchMultiWindowPointerHandler.h, which is not among the sources.
    Its constructor binds the connection, the window, the message sink and
    the caller's event callback; [getWindow] returns the recorded window. *)
Record PointerHandler : Set := {
  hDisplay : option Display;
  hWindow : Window;
  hMessageCallback : Callback;
  hPointerCallback : Callback
}.

Definition getWindow (h : PointerHandler) : Window := hWindow h.

(** The fields of [XIDeviceEvent] the system reads or forwards. *)
Record XIDeviceEvent : Set := {
  evtype : Z;
  detail : Z;
  event : Window
}.

(** An [XEvent] as [processEventQueue] looks at it: [e.type],
    [e.xcookie.extension] and the device event [e.xcookie.data] points to
    (the cast in the source takes the cookie's data to be there). *)
Record XEvent : Set := {
  type : Z;
  xcookie_extension : Z;
  xcookie_data : XIDeviceEvent
}.

(** ** The world around a [PointerSystem] *)

Record World := {
  displays : gset Display;              (* connections opened and not closed *)
  queue : list XEvent;                  (* events already read into the queue *)
  handlers : gmap Ptr PointerHandler;   (* live PointerHandler objects *)
  arrays : gmap Ptr (list Window);      (* live Window[] buffers *)
  stale_deletes : list Ptr;             (* delete of a dead handler address *)
  messages : list Message;              (* what the message sink received *)
  delivered : list (Ptr * XEvent);      (* processEvent calls: handler, event *)
  taken : list XEvent                   (* events XNextEvent handed out *)
}.

Definition set_displays (x : gset Display) (w : World) : World :=
  {| displays := x; queue := queue w; handlers := handlers w;
     arrays := arrays w; stale_deletes := stale_deletes w;
     messages := messages w; delivered := delivered w; taken := taken w |}.

Definition set_queue (x : list XEvent) (w : World) : World :=
  {| displays := displays w; queue := x; handlers := handlers w;
     arrays := arrays w; stale_deletes := stale_deletes w;
     messages := messages w; delivered := delivered w; taken := taken w |}.

Definition set_handlers (x : gmap Ptr PointerHandler) (w : World) : World :=
  {| displays := displays w; queue := queue w; handlers := x;
     arrays := arrays w; stale_deletes := stale_deletes w;
     messages := messages w; delivered := delivered w; taken := taken w |}.

Definition set_arrays (x : gmap Ptr (list Window)) (w : World) : World :=
  {| displays := displays w; queue := queue w; handlers := handlers w;
     arrays := x; stale_deletes := stale_deletes w;
     messages := messages w; delivered := delivered w; taken := taken w |}.

Definition set_stale_deletes (x : list Ptr) (w : World) : World :=
  {| displays := displays w; queue := queue w; handlers := handlers w;
     arrays := arrays w; stale_deletes := x;
     messages := messages w; delivered := delivered w; taken := taken w |}.

Definition set_messages (x : list Message) (w : World) : World :=
  {| displays := displays w; queue := queue w; handlers := handlers w;
     arrays := arrays w; stale_deletes := stale_deletes w;
     messages := x; delivered := delivered w; taken := taken w |}.

Definition set_delivered (x : list (Ptr * XEvent)) (w : World) : World :=
  {| displays := displays w; queue := queue w; handlers := handlers w;
     arrays := arrays w; stale_deletes := stale_deletes w;
     messages := messages w; delivered := x; taken := taken w |}.

Definition set_taken (x : list XEvent) (w : World) : World :=
  {| displays := displays w; queue := queue w; handlers := handlers w;
     arrays := arrays w; stale_deletes := stale_deletes w;
     messages := messages w; delivered := delivered w; taken := x |}.

(** Modelled from the spec: [sendMessage] of X11TouchMultiWindowUtils.h
    (not among the sources) invokes the message-sink callback with a
    severity and a human-readable string. *)
Definition sendMessage (cb : Callback) (ty : MessageType.t) (msg : string)
    (w : World) : World :=
  set_messages (messages w ++ [{| sink := cb; severity := ty; text := msg |}]) w.

(** *** Heap primitives *)

(** [operator new] hands out an address that is neither null nor live. *)
Definition new_address {V} (heap : gmap Ptr V) : Ptr :=
  fresh ({[NULL]} ∪ dom heap).

(** [delete handler]: the object is released; releasing an address that is
    not live is undefined in C++ and is recorded in [stale_deletes]. *)
Definition delete_handler (p : Ptr) (w : World) : World :=
  match handlers w !! p with
  | Some _ => set_handlers (delete p (handlers w)) w
  | None => set_stale_deletes (stale_deletes w ++ [p]) w
  end.

(** [delete[] windows]: a live array is released; on an address that is
    not a live array, one already released for instance, [delete[]] has no
    defined behaviour ([None]). *)
Definition delete_array (p : Ptr) (w : World) : option World :=
  match arrays w !! p with
  | Some _ => Some (set_arrays (delete p (arrays w)) w)
  | None => None
  end.

(** *** Xlib primitives *)

(** What the X server answers during bootstrap: whether the display can be
    opened, the reply of [XQueryExtension] (presence and major opcode) and
    the reply of [XIQueryVersion] (status, and the version written back). *)
Record XServer : Set := {
  open_ok : bool;
  ext_present : bool;
  ext_opcode : Z;
  version_status : Z;
  version_major : Z;
  version_minor : Z
}.

Definition XOpenDisplay (srv : XServer) (w : World) : option Display * World :=
  if open_ok srv
  then let d := fresh (displays w) in (Some d, set_displays ({[d]} ∪ displays w) w)
  else (None, w).

Definition XCloseDisplay (d : Display) (w : World) : World :=
  set_displays (displays w ∖ {[d]}) w.

(** [XEventsQueued(display, QueuedAlready)]: the number of events already in
    the queue; nothing is read from the connection. *)
Definition XEventsQueued (w : World) : Z := Z.of_nat (length (queue w)).

(** [XNextEvent]: removes the head of the queue; on an empty queue it
    blocks until an event arrives, which is [None] here. *)
Definition XNextEvent (w : World) : option (XEvent * World) :=
  match queue w with
  | [] => None
  | e :: q => Some (e, set_taken (taken w ++ [e]) (set_queue q w))
  end.

(** Events the connection reads into the queue while the caller is busy. *)
Definition enqueue (batch : list XEvent) (w : World) : World :=
  set_queue (queue w ++ batch) w.

(** ** The object *)

Record PointerSystem := {
  mDisplay : option Display;
  mOpcode : Z;
  mMessageCallback : Callback;
  mPointerHandlers : gmap Window Ptr
}.

Definition set_mDisplay (x : option Display) (s : PointerSystem) : PointerSystem :=
  {| mDisplay := x; mOpcode := mOpcode s;
     mMessageCallback := mMessageCallback s;
     mPointerHandlers := mPointerHandlers s |}.

Definition set_mOpcode (x : Z) (s : PointerSystem) : PointerSystem :=
  {| mDisplay := mDisplay s; mOpcode := x;
     mMessageCallback := mMessageCallback s;
     mPointerHandlers := mPointerHandlers s |}.

Definition set_mPointerHandlers (x : gmap Window Ptr) (s : PointerSystem)
    : PointerSystem :=
  {| mDisplay := mDisplay s; mOpcode := mOpcode s;
     mMessageCallback := mMessageCallback s;
     mPointerHandlers := x |}.

(** [PointerSystem::PointerSystem]. *)
Definition PointerSystem_new (messageCallback : Callback) : PointerSystem :=
  {| mDisplay := None; mOpcode := 0;
     mMessageCallback := messageCallback;
     mPointerHandlers := ∅ |}.

(** [PointerSystem::initialize]. *)
Definition initialize (srv : XServer) (s : PointerSystem) (w : World)
    : Result * PointerSystem * World :=
  match XOpenDisplay srv w with
  | (None, w1) =>
      (ERROR_API, set_mDisplay None s,
       sendMessage (mMessageCallback s) MessageType.ERROR
         "Failed to open X11 display connection." w1)
  | (Some d, w1) =>
      let s1 := set_mOpcode (ext_opcode srv) (set_mDisplay (Some d) s) in
      if negb (ext_present srv) then
        let w2 := sendMessage (mMessageCallback s) MessageType.ERROR
                    "Failed to get the XInput extension." w1 in
        (ERROR_API, set_mDisplay None s1, XCloseDisplay d w2)
      else if (version_status srv =? BadRequest)%Z then
        let w2 := sendMessage (mMessageCallback s) MessageType.ERROR
                    ("Unsupported XInput extension version: expected 2.3+, actual "
                     +:+ to_string_int (version_major srv) +:+ "."
                     +:+ to_string_int (version_minor srv)) w1 in
        (ERROR_API, set_mDisplay None s1, XCloseDisplay d w2)
      else (OK, s1, w1)
  end.

(** ** The handler registry *)

(** [std::map::insert]: an existing key keeps its value. *)
Definition map_insert_pair (k : Window) (v : Ptr) (m : gmap Window Ptr)
    : gmap Window Ptr :=
  match m !! k with
  | Some _ => m
  | None => <[k := v]> m
  end.

(** [new PointerHandler(display, window, messageCallback, pointerCallback)]. *)
Definition new_PointerHandler (h : PointerHandler) (w : World) : Ptr * World :=
  let p := new_address (handlers w) in
  (p, set_handlers (<[p := h]> (handlers w)) w).

Section Registry.

(** [PointerHandler::initialize] belongs to the collaborator class; the
    system only propagates what it returns.  It runs on the handler just
    built, in the state the system is in at the moment of the call. *)
Variable PointerHandler_initialize :
  PointerHandler -> PointerSystem -> World -> Result.

(** [PointerSystem::createHandler]; the second component is what was
    stored through [handle], if anything. *)
Definition createHandler (window : Window) (pointerCallback : Callback)
    (s : PointerSystem) (w : World)
    : Result * option Ptr * PointerSystem * World :=
  match mPointerHandlers s !! window with
  | Some _ =>
      (ERROR_DUPLICATE_ITEM, None, s,
       sendMessage (mMessageCallback s) MessageType.ERROR
         ("A handler has already been created for window "
          +:+ to_string_ulong window) w)
  | None =>
      let obj := {| hDisplay := mDisplay s; hWindow := window;
                    hMessageCallback := mMessageCallback s;
                    hPointerCallback := pointerCallback |} in
      let '(handler, w1) := new_PointerHandler obj w in
      let handle := Some handler in
      let s1 := set_mPointerHandlers
                  (map_insert_pair window handler (mPointerHandlers s)) s in
      (PointerHandler_initialize obj s1 w1, handle, s1, w1)
  end.

End Registry.

(** [PointerSystem::getHandler]; [None] is [nullptr]. *)
Definition getHandler (window : Window) (s : PointerSystem) : option Ptr :=
  mPointerHandlers s !! window.

(** [PointerSystem::destroyHandler].  [handler->getWindow()] reads the
    object, so a pointer to no live handler has no defined behaviour
    ([None]). *)
Definition destroyHandler (handler : Ptr) (s : PointerSystem) (w : World)
    : option (Result * PointerSystem * World) :=
  match handlers w !! handler with
  | None => None
  | Some obj =>
      let s1 := match mPointerHandlers s !! getWindow obj with
                | Some _ => set_mPointerHandlers
                              (delete (getWindow obj) (mPointerHandlers s)) s
                | None => s
                end in
      Some (OK, s1, delete_handler handler w)
  end.

(** ** The event queue *)

(** [handler->processEvent(xiEvent)]: the handler receives the device
    event of [e]; what it does with it is its own business. *)
Definition processEvent (handler : Ptr) (e : XEvent) (w : World) : World :=
  set_delivered (delivered w ++ [(handler, e)]) w.

(** How a call of [processEventQueue] can end. *)
Inductive Outcome :=
  | Returned (r : Result) (w : World)
  | Blocked                      (* XNextEvent called on an empty queue *)
  | OutOfFuel.

(** The first batch of an arrival schedule and the rest of it. *)
Definition next_batch (arrivals : list (list XEvent))
    : list XEvent * list (list XEvent) :=
  match arrivals with
  | [] => ([], [])
  | b :: rest => (b, rest)
  end.

(** [PointerSystem::processEventQueue].  [arrivals] is what the connection
    reads into the queue while the call runs: its k-th batch arrives while
    the k-th event taken is being handled, and nothing arrives once the
    schedule is used up.  One unit of fuel is one test of the loop
    condition. *)
Fixpoint processEventQueue (fuel : nat) (arrivals : list (list XEvent))
    (s : PointerSystem) (w : World) : Outcome :=
  match fuel with
  | O => OutOfFuel
  | S fuel' =>
      if (XEventsQueued w =? 0)%Z then Returned OK w
      else
        match XNextEvent w with
        | None => Blocked
        | Some (e, w1) =>
            let '(batch, rest) := next_batch arrivals in
            if negb (type e =? GenericEvent)%Z
               || negb (xcookie_extension e =? mOpcode s)%Z
            then processEventQueue fuel' rest s (enqueue batch w1)
            else
              let xiEvent := xcookie_data e in
              let window := event xiEvent in
              match mPointerHandlers s !! window with
              | None =>
                  let w2 := sendMessage (mMessageCallback s) MessageType.WARNING
                              ("Failed to retrieve handler for window "
                               +:+ to_string_ulong window) w1 in
                  processEventQueue fuel' rest s (enqueue batch w2)
              | Some handler =>
                  let w2 := processEvent handler e w1 in
                  processEventQueue fuel' rest s (enqueue batch w2)
              end
        end
  end.

(** ** The windows of a process *)

(** What [XGetWindowProperty] answers for the process-id property of a
    window: a status other than [Success]; [Success] with no data
    ([propPID] null); [Success] with data whose first unsigned long is [v]. *)
Inductive PropReply : Set :=
  | PropError
  | PropAbsent
  | PropValue (v : N).

(** The window hierarchy of the server: each window with the reply to the
    read of its process-id property, whether [XQueryTree] on it succeeds
    (returns non-zero), and its children in server order. *)
#[warnings="-register-all"]
Inductive WTree : Set :=
  | WNode (window : Window) (prop : PropReply) (tree_ok : bool)
          (childWindows : list WTree).

(** The recursive overload of [PointerSystem::getWindowsOfProcess];
    [windows] is the vector being filled. *)
Fixpoint getWindowsOfProcess_walk (t : WTree) (pid : N) (windows : list Window)
    : list Window :=
  match t with
  | WNode window prop tree_ok childWindows =>
      let windows1 :=
        match prop with
        | PropValue windowPID =>
            if (windowPID =? pid)%N then windows ++ [window] else windows
        | _ => windows
        end in
      if tree_ok
      then fold_left (fun acc child => getWindowsOfProcess_walk child pid acc)
                     childWindows windows1
      else windows1
  end.

(** [PointerSystem::getWindowsOfProcess].  [srv] is the hierarchy below
    the default root window; [windows] is the address of the caller's
    output slot; the second component is what was stored through [windows]
    and [numWindows] (a [uint]), if anything. *)
Definition getWindowsOfProcess (srv : WTree) (pid : N) (windows : Ptr)
    (s : PointerSystem) (w : World) : Result * option (Ptr * Z) * World :=
  if (windows =? NULL)%N then (ERROR_NULL_POINTER, None, w)
  else
    let result := getWindowsOfProcess_walk srv pid [] in
    let numWindows := (Z.of_nat (length result) mod 2 ^ 32)%Z in
    let buffer := new_address (arrays w) in
    (OK, Some (buffer, numWindows),
     set_arrays (<[buffer := result]> (arrays w)) w).

(** [PointerSystem::freeWindowsOfProcess].  The call has a result when
    [delete[]] has defined behaviour, and none ([None]) otherwise. *)
Definition freeWindowsOfProcess (windows : Ptr) (s : PointerSystem) (w : World)
    : option (Result * World) :=
  if (windows =? NULL)%N then Some (ERROR_NULL_POINTER, w)
  else
    match delete_array windows w with
    | Some w' => Some (OK, w')
    | None => None
    end.

(** ** The exported interface *)

(** The process: the [PointerSystem] objects on the heap and the world. *)
Record Process := {
  systems : gmap Ptr PointerSystem;
  world : World
}.

(** [PointerSystem::~PointerSystem]. *)
Definition PointerSystem_delete (s : PointerSystem) (w : World) : World :=
  let w1 := map_fold (fun _ handler acc => delete_handler handler acc)
                     w (mPointerHandlers s) in
  match mDisplay s with
  | Some d => XCloseDisplay d w1
  | None => w1
  end.

(** [PointerSystem_Create]; the second component is what was stored
    through [handle]. *)
Definition PointerSystem_Create (srv : XServer) (messageCallback : Callback)
    (P : Process) : Result * option Ptr * Process :=
  let system := new_address (systems P) in
  let P1 := {| systems := <[system := PointerSystem_new messageCallback]> (systems P);
               world := world P |} in
  let handle := Some system in
  let '(r, s', w') := initialize srv (PointerSystem_new messageCallback) (world P1) in
  (r, handle, {| systems := <[system := s']> (systems P1); world := w' |}).

(** [PointerSystem_Destroy]: [delete] of a null pointer does nothing, of a
    live object runs its destructor, of anything else is undefined. *)
Definition PointerSystem_Destroy (system : Ptr) (P : Process)
    : option (Result * Process) :=
  if (system =? NULL)%N then Some (OK, P)
  else match systems P !! system with
       | Some s => Some (OK, {| systems := delete system (systems P);
                                world := PointerSystem_delete s (world P) |})
       | None => None
       end.

(** ** Descriptions used in the statements *)

(** The registry entries held for one window. *)
Definition entries_for (window : Window) (m : gmap Window Ptr)
    : list (Window * Ptr) :=
  filter (λ kv, kv.1 = window) (map_to_list m).

(** A server on which every bootstrap step succeeds. *)
Definition bootstrap_succeeds (srv : XServer) : Prop :=
  open_ok srv = true ∧ ext_present srv = true ∧ version_status srv ≠ BadRequest.


(** An event of the generic category tagged with the negotiated opcode. *)
Definition extension_event (s : PointerSystem) (e : XEvent) : bool :=
  (type e =? GenericEvent)%Z && (xcookie_extension e =? mOpcode s)%Z.

(** An extension event whose target window has no registered handler. *)
Definition routing_miss (s : PointerSystem) (e : XEvent) : bool :=
  extension_event s e
  && bool_decide (mPointerHandlers s !! event (xcookie_data e) = None).

(** The warning reported for a routing miss. *)
Definition miss_warning (s : PointerSystem) (e : XEvent) : Message :=
  {| sink := mMessageCallback s;
     severity := MessageType.WARNING;
     text := "Failed to retrieve handler for window "
             +:+ to_string_ulong (event (xcookie_data e)) |}.

(** The handler an event is forwarded to, if any. *)
Definition dispatch (s : PointerSystem) (e : XEvent) : option (Ptr * XEvent) :=
  if extension_event s e
  then (λ handler, (handler, e)) <$> mPointerHandlers s !! event (xcookie_data e)
  else None.

(** The effect of one completed call of [processEventQueue] that took the
    events [c] from world [w] and ended in [w']: the queue is empty; [c] is
    what was queued at entry followed by the batches that arrived while the
    events of [c] were handled; one warning per routing miss; one forward
    per routed event; nothing else changed. *)
Definition drained (s : PointerSystem) (arrivals : list (list XEvent))
    (w : World) (c : list XEvent) (w' : World) : Prop :=
  queue w' = [] ∧
  taken w' = taken w ++ c ∧
  c = queue w ++ concat (take (length c) arrivals) ∧
  messages w' = messages w ++ map (miss_warning s) (List.filter (routing_miss s) c) ∧
  delivered w' = delivered w ++ omap (dispatch s) c ∧
  displays w' = displays w ∧
  handlers w' = handlers w ∧
  arrays w' = arrays w ∧
  stale_deletes w' = stale_deletes w.

(** The number of events a call consumed, when it returned. *)
Definition events_consumed (before : World) (o : Outcome) : option nat :=
  match o with
  | Returned _ w' => Some (length (taken w') - length (taken before))
  | _ => None
  end.

(** The windows reached from the root through successful tree queries, in
    pre-order, each with its property reply. *)
Fixpoint preorder (t : WTree) : list (Window * PropReply) :=
  match t with
  | WNode window prop tree_ok childWindows =>
      (window, prop) ::
      (if tree_ok then flat_map preorder childWindows else [])
  end.

(** The same windows, as a relation: [in_tree x q t] when window [x], with
    property reply [q], is the root of [t] or lies below a child of a
    window whose tree query succeeds. *)
Inductive in_tree (x : Window) (q : PropReply) : WTree → Prop :=
  | in_tree_root tree_ok childWindows :
      in_tree x q (WNode x q tree_ok childWindows)
  | in_tree_child window prop childWindows child :
      child ∈ childWindows →
      in_tree x q child →
      in_tree x q (WNode window prop true childWindows).

(** Every window of the hierarchy, seen by the walk or not. *)
Fixpoint all_windows (t : WTree) : list Window :=
  match t with
  | WNode window _ _ childWindows => window :: flat_map all_windows childWindows
  end.

(** The process-id property is present and equals [pid]. *)
Definition owned_by (pid : N) (node : Window * PropReply) : bool :=
  match node.2 with
  | PropValue windowPID => (windowPID =? pid)%N
  | _ => false
  end.

(** ** Sample inputs *)

(** A touch event ([XI_TouchBegin] is 18) on a window. *)
Definition touch_on (window : Window) : XIDeviceEvent :=
  {| evtype := 18; detail := 0; event := window |}.

(** A generic event of extension [opcode] for [window]. *)
Definition generic_event (opcode : Z) (window : Window) : XEvent :=
  {| type := GenericEvent; xcookie_extension := opcode;
     xcookie_data := touch_on window |}.

(** A core protocol event ([KeyPress] is 2). *)
Definition key_press : XEvent :=
  {| type := 2; xcookie_extension := 0; xcookie_data := touch_on 7%N |}.

Definition sample_handler : PointerHandler :=
  {| hDisplay := Some 0%N; hWindow := 7%N;
     hMessageCallback := 1%N; hPointerCallback := 2%N |}.

(** A bootstrapped system (opcode 131) with one handler, at address 100,
    for window 7. *)
Definition sample_system : PointerSystem :=
  {| mDisplay := Some 0%N; mOpcode := 131; mMessageCallback := 1%N;
     mPointerHandlers := {[ 7%N := 100%N ]} |}.

Definition sample_world (q : list XEvent) : World :=
  {| displays := {[ 0%N ]}; queue := q;
     handlers := {[ 100%N := sample_handler ]}; arrays := ∅;
     stale_deletes := []; messages := []; delivered := []; taken := [] |}.

Definition always_OK (_ : PointerHandler) (_ : PointerSystem) (_ : World) : Result :=
  OK.

Definition always_ERROR_API (_ : PointerHandler) (_ : PointerSystem) (_ : World)
    : Result :=
  ERROR_API.

(** root -> { W1 (pid 7), W2 (pid 9) -> { W3 (pid 7) } }, with
    root = 1, W1 = 11, W2 = 12, W3 = 13; the root has no process id. *)
Definition sample_tree : WTree :=
  WNode 1%N PropAbsent true
    [ WNode 11%N (PropValue 7%N) true [];
      WNode 12%N (PropValue 9%N) true
        [ WNode 13%N (PropValue 7%N) true [] ] ].

(** A hierarchy with a window 14 whose property cannot be read and whose
    child 18 belongs to pid 7, a window 15 of pid 7 whose tree query fails
    (its child 16, of pid 7 too, is never seen), and a last window 17 of
    pid 7. *)
Definition sample_tree_with_failures : WTree :=
  WNode 1%N PropAbsent true
    [ WNode 11%N (PropValue 7%N) true [];
      WNode 14%N PropError true [ WNode 18%N (PropValue 7%N) true [] ];
      WNode 15%N (PropValue 7%N) false [ WNode 16%N (PropValue 7%N) true [] ];
      WNode 17%N (PropValue 7%N) true [] ].

(** Three servers: one without the XInput extension, one that answers the
    version query with [BadRequest], one on which bootstrap succeeds. *)
Definition server_without_extension : XServer :=
  {| open_ok := true; ext_present := false; ext_opcode := 0;
     version_status := Success; version_major := 2; version_minor := 3 |}.

Definition server_without_xi2 : XServer :=
  {| open_ok := true; ext_present := true; ext_opcode := 131;
     version_status := BadRequest; version_major := 1; version_minor := 5 |}.

Definition server_ready : XServer :=
  {| open_ok := true; ext_present := true; ext_opcode := 131;
     version_status := Success; version_major := 2; version_minor := 3 |}.

Definition server_down : XServer :=
  {| open_ok := false; ext_present := false; ext_opcode := 0;
     version_status := Success; version_major := 0; version_minor := 0 |}.

(** The world a completed call leaves, for stating concrete runs. *)
Definition final_world (o : Outcome) : option World :=
  match o with
  | Returned _ w' => Some w'
  | _ => None
  end.

(** A queue with a core event, an event of another extension and a touch
    event for the registered window 7. *)
Definition mixed_queue : list XEvent :=
  [key_press; generic_event 99 7%N; generic_event 131 7%N].

(** What a call leaves of [mixed_queue]: every event taken, the last one
    forwarded to the handler at address 100. *)
Definition mixed_queue_final : World :=
  set_taken mixed_queue
    (set_delivered [(100%N, generic_event 131 7%N)] (sample_world [])).

(** A queue with a touch event for the unregistered window 9 followed by
    one for the registered window 7. *)
Definition queue_with_miss : list XEvent :=
  [generic_event 131 9%N; generic_event 131 7%N].

Definition empty_process : Process :=
  {| systems := ∅; world := sample_world [] |}.

(** ** The other exported functions *)

Section Exports.

Variable PointerHandler_initialize :
  PointerHandler -> PointerSystem -> World -> Result.

(** [PointerSystem_CreateHandler]: the member call goes through [system],
    which must designate a live object. *)
Definition PointerSystem_CreateHandler (system : Ptr) (window : Window)
    (pointerCallback : Callback) (P : Process)
    : option (Result * option Ptr * Process) :=
  match systems P !! system with
  | None => None
  | Some s =>
      let '(r, handle, s', w') :=
        createHandler PointerHandler_initialize window pointerCallback s (world P) in
      Some (r, handle, {| systems := <[system := s']> (systems P); world := w' |})
  end.

End Exports.

(** [PointerSystem_DestroyHandler]. *)
Definition PointerSystem_DestroyHandler (system : Ptr) (handler : Ptr) (P : Process)
    : option (Result * Process) :=
  match systems P !! system with
  | None => None
  | Some s =>
      match destroyHandler handler s (world P) with
      | None => None
      | Some (r, s', w') =>
          Some (r, {| systems := <[system := s']> (systems P); world := w' |})
      end
  end.

(** [PointerSystem_ProcessEventQueue]; the object is not modified, the
    outcome carries the world. *)
Definition PointerSystem_ProcessEventQueue (fuel : nat)
    (arrivals : list (list XEvent)) (system : Ptr) (P : Process)
    : option Outcome :=
  match systems P !! system with
  | None => None
  | Some s => Some (processEventQueue fuel arrivals s (world P))
  end.

(** The conversion of the [int] argument [processID] to the
    [unsigned long] parameter [pid], for an [unsigned long] of
    [ulong_bits] bits. *)
Definition ulong_of_int (ulong_bits : Z) (processID : Z) : N :=
  Z.to_N (processID mod 2 ^ ulong_bits).

(** [PointerSystem_GetWindowsOfProcess]. *)
Definition PointerSystem_GetWindowsOfProcess (ulong_bits : Z) (srv : WTree)
    (system : Ptr) (processID : Z) (windows : Ptr) (P : Process)
    : option (Result * option (Ptr * Z) * Process) :=
  match systems P !! system with
  | None => None
  | Some s =>
      let '(r, out, w') :=
        getWindowsOfProcess srv (ulong_of_int ulong_bits processID) windows s
          (world P) in
      Some (r, out, {| systems := systems P; world := w' |})
  end.

(** [XFreeWindowsOfProcess]. *)
Definition XFreeWindowsOfProcess (system : Ptr) (windows : Ptr) (P : Process)
    : option (Result * Process) :=
  match systems P !! system with
  | None => None
  | Some s =>
      match freeWindowsOfProcess windows s (world P) with
      | Some (r, w') => Some (r, {| systems := systems P; world := w' |})
      | None => None
      end
  end.

(** ** Further descriptions *)

(** Every registry entry designates a live handler that records the
    window it is registered for. *)
Definition registry_wf (s : PointerSystem) (w : World) : Prop :=
  ∀ window p,
    mPointerHandlers s !! window = Some p →
    ∃ obj, handlers w !! p = Some obj ∧ getWindow obj = window.

(** The address [p] is registered for some window. *)
Definition registered (s : PointerSystem) (p : Ptr) : Prop :=
  ∃ window, mPointerHandlers s !! window = Some p.

(** The world a completed call leaves after taking the events [c]. *)
Definition after_drain (s : PointerSystem) (c : list XEvent) (w : World) : World :=
  {| displays := displays w;
     queue := [];
     handlers := handlers w;
     arrays := arrays w;
     stale_deletes := stale_deletes w;
     messages := messages w
                 ++ map (miss_warning s) (List.filter (routing_miss s) c);
     delivered := delivered w ++ omap (dispatch s) c;
     taken := taken w ++ c |}.

(** The connections the object holds: its display, if any. *)
Definition held (s : PointerSystem) : gset Display :=
  match mDisplay s with
  | Some d => {[d]}
  | None => ∅
  end.

(** Every process-id property the walk reads holds a value below
    [bound]. *)
Definition pids_below (bound : N) (t : WTree) : Prop :=
  ∀ x v, (x, PropValue v) ∈ preorder t → (v < bound)%N.

(** A registry with a second system beside [sample_system], and a process
    holding both. *)
Definition second_system : PointerSystem :=
  {| mDisplay := Some 0%N; mOpcode := 131; mMessageCallback := 1%N;
     mPointerHandlers := ∅ |}.

Definition two_systems : Process :=
  {| systems := {[ 1%N := sample_system; 2%N := second_system ]};
     world := sample_world [] |}.

(** A second handler for window 7, at address 101, beside the registered
    one at address 100. *)
Definition world_with_foreign_handler : World :=
  set_handlers (<[101%N := sample_handler]> (handlers (sample_world [])))
    (sample_world []).
(** * Bootstrap *)

Lemma XOpenDisplay_fresh (w : World) : fresh (displays w) ∉ displays w.
Proof. apply is_fresh. Qed.

Lemma open_then_close (w : World) (cb : Callback) (ty : MessageType.t) (msg : string) :
  displays (XCloseDisplay (fresh (displays w))
              (sendMessage cb ty msg
                 (set_displays ({[fresh (displays w)]} ∪ displays w) w)))
  = displays w.
Proof.
  cbn. pose proof (XOpenDisplay_fresh w) as Hfresh.
  apply set_eq. intros x.
  rewrite elem_of_difference, elem_of_union, elem_of_singleton. split.
  - intros [[-> | Hin] Hne]; [destruct Hne; reflexivity | exact Hin].
  - intros Hin. split; [right; exact Hin |]. intros ->. exact (Hfresh Hin).
Qed.

Lemma initialize_success (srv : XServer) (s : PointerSystem) (w : World) :
  bootstrap_succeeds srv →
  initialize srv s w =
    (OK,
     set_mOpcode (ext_opcode srv) (set_mDisplay (Some (fresh (displays w))) s),
     set_displays ({[fresh (displays w)]} ∪ displays w) w).
Proof.
  intros (Hopen & Hext & Hver).
  unfold initialize, XOpenDisplay. rewrite Hopen, Hext. cbn.
  destruct (Z.eqb_spec (version_status srv) BadRequest); [contradiction | reflexivity].
Qed.

(** C3. When the display opens but the extension is missing or the version
    query answers [BadRequest], [initialize] returns [ERROR_API], the
    connection it opened is closed again (the set of open connections is
    what it was before the call) and [mDisplay] is null; a later
    [initialize] on the same object against a server where every step
    succeeds returns [OK] and holds the one connection it opened. *)
Theorem initialize_rolls_back (srv : XServer) (s : PointerSystem) (w : World) :
  open_ok srv = true →
  ext_present srv = false ∨ version_status srv = BadRequest →
  ∃ s' w',
    initialize srv s w = (ERROR_API, s', w') ∧
    mDisplay s' = None ∧
    displays w' = displays w ∧
    ∀ srv2, bootstrap_succeeds srv2 →
      ∃ d s'' w'',
        initialize srv2 s' w' = (OK, s'', w'') ∧
        mDisplay s'' = Some d ∧
        mOpcode s'' = ext_opcode srv2 ∧
        (d ∉ displays w) ∧
        displays w'' = {[d]} ∪ displays w.
Proof.
  intros Hopen Hfail.
  assert (Hinit : ∃ s' w', initialize srv s w = (ERROR_API, s', w') ∧
                    mDisplay s' = None ∧ displays w' = displays w).
  { unfold initialize, XOpenDisplay. rewrite Hopen.
    destruct (ext_present srv) eqn:Hext; cbn [negb].
    - destruct Hfail as [Hf | Hf]; [discriminate |].
      rewrite Hf, Z.eqb_refl.
      eexists _, _. split; [reflexivity |]. split; [reflexivity |].
      apply open_then_close.
    - eexists _, _. split; [reflexivity |]. split; [reflexivity |].
      apply open_then_close. }
  destruct Hinit as (s' & w' & Hrun & Hnull & Hdisp).
  exists s', w'. repeat split; try assumption.
  intros srv2 Hok.
  exists (fresh (displays w')). eexists _, _.
  rewrite (initialize_success srv2 s' w' Hok).
  split; [reflexivity |]. cbn. rewrite Hdisp.
  repeat split. apply XOpenDisplay_fresh.
Qed.

(** * The handler registry *)

Lemma new_address_not_null {V} (heap : gmap Ptr V) : new_address heap ≠ NULL.
Proof.
  unfold new_address. intros Heq.
  pose proof (is_fresh ({[NULL]} ∪ dom heap)) as Hfresh.
  rewrite Heq in Hfresh. apply Hfresh. apply elem_of_union_l, elem_of_singleton. reflexivity.
Qed.

Lemma new_address_not_live {V} (heap : gmap Ptr V) : heap !! new_address heap = None.
Proof.
  unfold new_address.
  pose proof (is_fresh ({[NULL]} ∪ dom heap)) as Hfresh.
  apply not_elem_of_dom. intros Hin. apply Hfresh. apply elem_of_union_r, Hin.
Qed.

Lemma entries_for_absent (window : Window) (m : gmap Window Ptr) :
  m !! window = None → entries_for window m = [].
Proof.
  intros Hnone. unfold entries_for.
  apply elem_of_nil_inv. intros [k v] Hin.
  apply list_elem_of_filter in Hin as [Hk Hin]. cbn in Hk. subst k.
  apply elem_of_map_to_list in Hin. congruence.
Qed.

Lemma entries_for_present (window : Window) (p : Ptr) (m : gmap Window Ptr) :
  m !! window = Some p → entries_for window m = [(window, p)].
Proof.
  intros Hsome. unfold entries_for.
  rewrite <- (insert_delete_id m window p Hsome).
  apply Permutation_singleton_r.
  rewrite map_to_list_insert by apply lookup_delete_eq.
  rewrite filter_cons_True by reflexivity.
  fold (entries_for window (delete window m)).
  rewrite entries_for_absent by apply lookup_delete_eq.
  reflexivity.
Qed.

Section RegistryFacts.

Variable PointerHandler_initialize :
  PointerHandler → PointerSystem → World → Result.

Lemma createHandler_duplicate window cb s w p :
  mPointerHandlers s !! window = Some p →
  createHandler PointerHandler_initialize window cb s w =
    (ERROR_DUPLICATE_ITEM, None, s,
     sendMessage (mMessageCallback s) MessageType.ERROR
       ("A handler has already been created for window "
        +:+ to_string_ulong window) w).
Proof. intros Hp. unfold createHandler. rewrite Hp. reflexivity. Qed.

Lemma createHandler_fresh window cb s w :
  mPointerHandlers s !! window = None →
  let obj := {| hDisplay := mDisplay s; hWindow := window;
                hMessageCallback := mMessageCallback s;
                hPointerCallback := cb |} in
  let handler := new_address (handlers w) in
  let s1 := set_mPointerHandlers (<[window := handler]> (mPointerHandlers s)) s in
  let w1 := set_handlers (<[handler := obj]> (handlers w)) w in
  createHandler PointerHandler_initialize window cb s w =
    (PointerHandler_initialize obj s1 w1, Some handler, s1, w1).
Proof.
  intros Hnone. unfold createHandler, new_PointerHandler, map_insert_pair.
  rewrite Hnone. reflexivity.
Qed.

End RegistryFacts.

(** C4. When [window] already has an entry, [createHandler] returns
    [ERROR_DUPLICATE_ITEM], stores nothing through [handle], leaves the
    object (hence the registry) as it was and constructs no handler: the
    only effect is the error message.  Consequently, from any state where
    [window] has no entry, a first call registers it (and returns [OK] when
    the handler's initialization does), a second call returns
    [ERROR_DUPLICATE_ITEM], and the registry then holds exactly one entry
    for [window]. *)
Theorem createHandler_rejects_duplicate
    (init : PointerHandler → PointerSystem → World → Result)
    (window : Window) (cb : Callback) (s : PointerSystem) (w : World) (p : Ptr) :
  mPointerHandlers s !! window = Some p →
  (∃ w', createHandler init window cb s w = (ERROR_DUPLICATE_ITEM, None, s, w') ∧
         handlers w' = handlers w ∧
         stale_deletes w' = stale_deletes w ∧
         entries_for window (mPointerHandlers s) = [(window, p)]) ∧
  (∀ s0 w0 cb1 cb2,
     mPointerHandlers s0 !! window = None →
     ∃ r1 q s1 w1 w2,
       createHandler init window cb1 s0 w0 = (r1, Some q, s1, w1) ∧
       ((∀ obj, init obj s1 w1 = OK) → r1 = OK) ∧
       createHandler init window cb2 s1 w1 = (ERROR_DUPLICATE_ITEM, None, s1, w2) ∧
       handlers w2 = handlers w1 ∧
       entries_for window (mPointerHandlers s1) = [(window, q)]).
Proof.
  intros Hp. split.
  - eexists. rewrite (createHandler_duplicate init window cb s w p Hp).
    split; [reflexivity |]. repeat split.
    apply entries_for_present, Hp.
  - intros s0 w0 cb1 cb2 Hnone.
    pose proof (createHandler_fresh init window cb1 s0 w0 Hnone) as Hfirst.
    cbv zeta in Hfirst.
    set (q := new_address (handlers w0)) in *.
    set (s1 := set_mPointerHandlers (<[window := q]> (mPointerHandlers s0)) s0) in *.
    assert (Hq : mPointerHandlers s1 !! window = Some q) by apply lookup_insert_eq.
    eexists _, q, s1, _, _. split; [exact Hfirst |].
    split; [intros Hok; apply Hok |].
    rewrite (createHandler_duplicate init window cb2 s1 _ q Hq).
    split; [reflexivity |]. split; [reflexivity |].
    apply entries_for_present, Hq.
Qed.

(** C8. When [window] has no entry, [createHandler] builds a handler for
    it at a new address, stores that address through [handle], and enters it
    in the registry; the handler's initialization then runs in a state whose
    registry already holds the entry, and [createHandler] returns exactly
    what that initialization returns.  Whatever that result is, the entry is
    in the registry afterwards and the handler is live. *)
Theorem createHandler_registers_before_initialize
    (init : PointerHandler → PointerSystem → World → Result)
    (window : Window) (cb : Callback) (s : PointerSystem) (w : World) :
  mPointerHandlers s !! window = None →
  ∃ handler obj s1 w1,
    createHandler init window cb s w = (init obj s1 w1, Some handler, s1, w1) ∧
    getWindow obj = window ∧
    handler ≠ NULL ∧
    handlers w !! handler = None ∧
    handlers w1 !! handler = Some obj ∧
    mPointerHandlers s1 = <[window := handler]> (mPointerHandlers s) ∧
    getHandler window s1 = Some handler ∧
    (∀ other, other ≠ window → getHandler other s1 = getHandler other s).
Proof.
  intros Hnone.
  pose proof (createHandler_fresh init window cb s w Hnone) as Hrun.
  cbv zeta in Hrun.
  eexists _, _, _, _. split; [exact Hrun |].
  split; [reflexivity |].
  split; [apply new_address_not_null |].
  split; [apply new_address_not_live |].
  split; [apply lookup_insert_eq |].
  split; [reflexivity |].
  split; [apply lookup_insert_eq |].
  intros other Hne. unfold getHandler. cbn. apply lookup_insert_ne. congruence.
Qed.

(** C9, as the code has it.  For a live handler, [destroyHandler] returns
    [OK]; the registry afterwards is the registry before without the entry
    keyed by the handler's recorded window, so [getHandler] for that window
    is absent; when there was no such entry the object is left as it was;
    in either case the handler is released, and nothing else on the heap
    is.  The handler must be live: [destroyHandler] reads the window out of
    the handler object, so a second call on the pointer just released is
    not a call that returns [OK] without effect, it has no defined
    behaviour. *)
Theorem destroyHandler_detaches_and_releases
    (handler : Ptr) (obj : PointerHandler) (s : PointerSystem) (w : World) :
  handlers w !! handler = Some obj →
  ∃ s' w',
    destroyHandler handler s w = Some (OK, s', w') ∧
    mPointerHandlers s' = delete (getWindow obj) (mPointerHandlers s) ∧
    getHandler (getWindow obj) s' = None ∧
    (∀ other, other ≠ getWindow obj → getHandler other s' = getHandler other s) ∧
    (getHandler (getWindow obj) s = None → s' = s) ∧
    handlers w' = delete handler (handlers w) ∧
    handlers w' !! handler = None ∧
    stale_deletes w' = stale_deletes w ∧
    destroyHandler handler s' w' = None.
Proof.
  intros Hlive.
  assert (Hagain : ∀ s0 w0, handlers w0 = delete handler (handlers w) →
            destroyHandler handler s0 w0 = None).
  { intros s0 w0 Hw0. unfold destroyHandler. rewrite Hw0, lookup_delete_eq.
    reflexivity. }
  unfold destroyHandler at 1. unfold delete_handler, getHandler. rewrite Hlive.
  destruct (mPointerHandlers s !! getWindow obj) as [q |] eqn:Hentry.
  - eexists _, _. split; [reflexivity |]. cbn.
    split; [reflexivity |].
    split; [apply lookup_delete_eq |].
    split; [intros other Hne; apply lookup_delete_ne; congruence |].
    split; [discriminate |].
    split; [reflexivity |].
    split; [apply lookup_delete_eq |].
    split; [reflexivity | apply Hagain; reflexivity].
  - eexists _, _. split; [reflexivity |]. cbn.
    split; [symmetry; apply delete_id, Hentry |].
    split; [exact Hentry |].
    split; [reflexivity |].
    split; [reflexivity |].
    split; [reflexivity |].
    split; [apply lookup_delete_eq |].
    split; [reflexivity | apply Hagain; reflexivity].
Qed.

(** A second [destroyHandler] on the same pointer reads a released object:
    the model gives it no behaviour. *)
Lemma destroyHandler_twice_undefined
    (handler : Ptr) (obj : PointerHandler) (s : PointerSystem) (w : World) :
  handlers w !! handler = Some obj →
  ∃ s' w', destroyHandler handler s w = Some (OK, s', w') ∧
           destroyHandler handler s' w' = None.
Proof.
  intros Hlive. unfold destroyHandler at 1. rewrite Hlive.
  eexists _, _. split; [reflexivity |].
  unfold destroyHandler, delete_handler. rewrite Hlive. cbn.
  rewrite lookup_delete_eq. reflexivity.
Qed.

(** * The event queue *)

Lemma drained_nil s arrivals w : queue w = [] → drained s arrivals w [] w.
Proof.
  intros Hq. unfold drained. cbn. rewrite Hq, !app_nil_r. repeat split; reflexivity.
Qed.

(** One turn of the loop followed by a completed run is a completed run. *)
Lemma drained_cons s arrivals e q w wmid c w' :
  queue w = e :: q →
  queue wmid = q ++ (next_batch arrivals).1 →
  taken wmid = taken w ++ [e] →
  messages wmid =
    messages w ++ (if routing_miss s e then [miss_warning s e] else []) →
  delivered wmid = delivered w ++ option_list (dispatch s e) →
  displays wmid = displays w →
  handlers wmid = handlers w →
  arrays wmid = arrays w →
  stale_deletes wmid = stale_deletes w →
  drained s (next_batch arrivals).2 wmid c w' →
  drained s arrivals w (e :: c) w'.
Proof.
  intros Hq Hqm Htk Hmsg Hdel Hd Hh Ha Hs
         (Hq' & Htk' & Hc & Hmsg' & Hdel' & Hd' & Hh' & Ha' & Hs').
  unfold drained. split; [exact Hq' |].
  split; [rewrite Htk', Htk, <- app_assoc; reflexivity |].
  split.
  { rewrite Hq. cbn [length]. rewrite Hc at 1. rewrite Hqm.
    destruct arrivals as [| b rest]; cbn.
    - rewrite take_nil. cbn. rewrite !app_nil_r. reflexivity.
    - rewrite <- app_assoc. reflexivity. }
  split.
  { rewrite Hmsg', Hmsg, <- app_assoc. f_equal. cbn [List.filter].
    destruct (routing_miss s e); reflexivity. }
  split.
  { rewrite Hdel', Hdel, <- app_assoc. f_equal. cbn [omap list_omap].
    destruct (dispatch s e); reflexivity. }
  repeat split; congruence.
Qed.

(** Whatever the fuel, a call either runs out of it or returns [OK] after a
    completed run; it never reaches [XNextEvent] on an empty queue. *)
Lemma processEventQueue_run (fuel : nat) :
  ∀ arrivals s w,
    processEventQueue fuel arrivals s w = OutOfFuel ∨
    ∃ c w', processEventQueue fuel arrivals s w = Returned OK w' ∧
            drained s arrivals w c w'.
Proof.
  induction fuel as [| fuel IH]; intros arrivals s w; [left; reflexivity |].
  cbn [processEventQueue]. unfold XEventsQueued, XNextEvent.
  destruct (queue w) as [| e q] eqn:Hq.
  { right. exists [], w. split; [reflexivity | apply drained_nil, Hq]. }
  cbn [length]. rewrite Nat2Z.inj_succ.
  destruct (Z.eqb_spec (Z.succ (Z.of_nat (length q))) 0) as [Hz | _]; [lia |].
  destruct (next_batch arrivals) as [batch rest] eqn:Hnb.
  assert (Hb : batch = (next_batch arrivals).1) by (rewrite Hnb; reflexivity).
  assert (Hr : rest = (next_batch arrivals).2) by (rewrite Hnb; reflexivity).
  match goal with
  | |- context [if ?b then _ else _] => destruct b eqn:Hfilter
  end.
  - (* not an extension event *)
    match goal with |- context [processEventQueue fuel rest s ?wm] =>
      destruct (IH rest s wm) as [Hout | (c & w' & Hrun & Hdr)] end;
      [left; exact Hout | right].
    exists (e :: c), w'. split; [exact Hrun |].
    assert (Hext : extension_event s e = false).
    { unfold extension_event. apply orb_true_iff in Hfilter.
      destruct Hfilter as [H | H]; apply negb_true_iff in H; rewrite H;
        [reflexivity | apply andb_false_r]. }
    eapply drained_cons; [exact Hq | | | | | | | | | rewrite <- Hr; exact Hdr];
      cbn; rewrite <- ?Hb; try reflexivity.
    + unfold routing_miss. rewrite Hext. cbn. rewrite app_nil_r. reflexivity.
    + unfold dispatch. rewrite Hext. cbn. rewrite app_nil_r. reflexivity.
  - assert (Hext : extension_event s e = true).
    { unfold extension_event. apply orb_false_iff in Hfilter.
      destruct Hfilter as [H1 H2]. apply negb_false_iff in H1, H2.
      rewrite H1, H2. reflexivity. }
    destruct (mPointerHandlers s !! event (xcookie_data e)) as [handler |] eqn:Hreg.
    + (* forwarded *)
      match goal with |- context [processEventQueue fuel rest s ?wm] =>
        destruct (IH rest s wm) as [Hout | (c & w' & Hrun & Hdr)] end;
        [left; exact Hout | right].
      exists (e :: c), w'. split; [exact Hrun |].
      eapply drained_cons; [exact Hq | | | | | | | | | rewrite <- Hr; exact Hdr];
        cbn; rewrite <- ?Hb; try reflexivity.
      * unfold routing_miss. rewrite Hext, Hreg. cbn. rewrite app_nil_r. reflexivity.
      * unfold dispatch. rewrite Hext, Hreg. reflexivity.
    + (* routing miss *)
      match goal with |- context [processEventQueue fuel rest s ?wm] =>
        destruct (IH rest s wm) as [Hout | (c & w' & Hrun & Hdr)] end;
        [left; exact Hout | right].
      exists (e :: c), w'. split; [exact Hrun |].
      eapply drained_cons; [exact Hq | | | | | | | | | rewrite <- Hr; exact Hdr];
        cbn; rewrite <- ?Hb; try reflexivity.
      * unfold routing_miss. rewrite Hext, Hreg. cbn. reflexivity.
      * unfold dispatch. rewrite Hext, Hreg. cbn. rewrite app_nil_r. reflexivity.
Qed.

(** A turn of the loop on a non-empty queue takes the head and goes on with
    the rest of the queue followed by the batch that arrived meanwhile. *)
Lemma processEventQueue_turn fuel arrivals s w e q :
  queue w = e :: q →
  ∃ wmid,
    processEventQueue (S fuel) arrivals s w =
      processEventQueue fuel (next_batch arrivals).2 s wmid ∧
    queue wmid = q ++ (next_batch arrivals).1.
Proof.
  intros Hq. cbn [processEventQueue]. unfold XEventsQueued, XNextEvent.
  rewrite Hq. cbn [length]. rewrite Nat2Z.inj_succ.
  destruct (Z.eqb_spec (Z.succ (Z.of_nat (length q))) 0) as [Hz | _]; [lia |].
  destruct (next_batch arrivals) as [batch rest]. cbn [fst snd].
  destruct (negb (type e =? GenericEvent)%Z
            || negb (xcookie_extension e =? mOpcode s)%Z).
  - eexists. split; [reflexivity | reflexivity].
  - destruct (mPointerHandlers s !! event (xcookie_data e)).
    + eexists. split; [reflexivity | reflexivity].
    + eexists. split; [reflexivity | reflexivity].
Qed.

Lemma next_batch_length arrivals :
  length (next_batch arrivals).1 + length (concat (next_batch arrivals).2)
  = length (concat arrivals).
Proof.
  destruct arrivals as [| b rest]; cbn; [reflexivity |].
  rewrite length_app. reflexivity.
Qed.

(** The loop ends: one unit of fuel per event queued or still to arrive,
    and one for the last test of the queue. *)
Lemma processEventQueue_enough_fuel (fuel : nat) :
  ∀ arrivals s w,
    length (queue w) + length (concat arrivals) < fuel →
    processEventQueue fuel arrivals s w ≠ OutOfFuel.
Proof.
  induction fuel as [| fuel IH]; intros arrivals s w Hfuel; [lia |].
  destruct (queue w) as [| e q] eqn:Hq.
  - cbn [processEventQueue]. unfold XEventsQueued. rewrite Hq. cbn. discriminate.
  - destruct (processEventQueue_turn fuel arrivals s w e q Hq) as (wmid & Hstep & Hqm).
    rewrite Hstep. apply IH.
    rewrite Hqm, length_app. pose proof (next_batch_length arrivals).
    cbn [length] in Hfuel. lia.
Qed.

Lemma processEventQueue_total fuel arrivals s w :
  length (queue w) + length (concat arrivals) < fuel →
  ∃ c w', processEventQueue fuel arrivals s w = Returned OK w' ∧
          drained s arrivals w c w'.
Proof.
  intros Hfuel.
  destruct (processEventQueue_run fuel arrivals s w) as [Hout | Hrun]; [| exact Hrun].
  exfalso. exact (processEventQueue_enough_fuel fuel arrivals s w Hfuel Hout).
Qed.

Lemma processEventQueue_returned fuel arrivals s w r w' :
  processEventQueue fuel arrivals s w = Returned r w' →
  r = OK ∧ ∃ c, drained s arrivals w c w'.
Proof.
  intros Hret.
  destruct (processEventQueue_run fuel arrivals s w) as [Hout | (c & w1 & Hrun & Hdr)];
    [congruence |].
  rewrite Hrun in Hret. injection Hret as <- <-. split; [reflexivity |].
  exists c. exact Hdr.
Qed.

Lemma dispatch_Some s e d :
  dispatch s e = Some d →
  d.2 = e ∧ type e = GenericEvent ∧ xcookie_extension e = mOpcode s ∧
  mPointerHandlers s !! event (xcookie_data e) = Some d.1.
Proof.
  unfold dispatch, extension_event. intros Hd.
  destruct (Z.eqb_spec (type e) GenericEvent) as [Ht |]; [| discriminate].
  destruct (Z.eqb_spec (xcookie_extension e) (mOpcode s)) as [Hx |]; [| discriminate].
  cbn in Hd. destruct (mPointerHandlers s !! event (xcookie_data e)) as [h |];
    [| discriminate].
  cbn in Hd. injection Hd as <-. cbn. repeat split; assumption.
Qed.

(** C1, as the code has it.  The loop tests the already-queued count before
    every turn, so a call takes events until it finds the queue empty: with
    enough fuel it returns [OK] with the queue empty, having taken, in
    order, the events queued at entry followed by every batch that arrived
    while it was handling them; with N events queued at entry (N at least
    1) and M more arriving while the first is handled it takes N + M.  It
    never calls [XNextEvent] on an empty queue, so it never blocks. *)
Theorem processEventQueue_drains_until_empty
    (fuel : nat) (arrivals : list (list XEvent)) (s : PointerSystem) (w : World) :
  length (queue w) + length (concat arrivals) < fuel →
  (∀ f, processEventQueue f arrivals s w ≠ Blocked) ∧
  ∃ c w',
    processEventQueue fuel arrivals s w = Returned OK w' ∧
    queue w' = [] ∧
    taken w' = taken w ++ c ∧
    c = queue w ++ concat (take (length c) arrivals) ∧
    events_consumed w (processEventQueue fuel arrivals s w) = Some (length c) ∧
    (∀ extra, arrivals = [extra] → queue w ≠ [] →
       length c = length (queue w) + length extra).
Proof.
  intros Hfuel. split.
  { intros f Hblocked.
    destruct (processEventQueue_run f arrivals s w) as [Hout | (c & w' & Hrun & _)];
      congruence. }
  destruct (processEventQueue_total fuel arrivals s w Hfuel)
    as (c & w' & Hrun & Hq & Htk & Hc & _).
  exists c, w'. rewrite Hrun. cbn [events_consumed].
  split; [reflexivity |]. split; [exact Hq |]. split; [exact Htk |].
  split; [exact Hc |]. split.
  { rewrite Htk, length_app. f_equal. lia. }
  intros extra -> Hne.
  destruct c as [| e c].
  { cbn in Hc. destruct (queue w); [contradiction | discriminate]. }
  rewrite Hc at 1. cbn [length take concat]. rewrite take_nil. cbn [concat].
  rewrite !length_app. cbn. lia.
Qed.

(** C5. Every event a completed call forwarded to a handler was taken
    from the queue by that call, is of the generic category, carries the
    negotiated opcode, and went to the handler registered for its target
    window: an event of another category or of another extension reaches
    no handler. *)
Theorem processEventQueue_forwards_only_extension_events
    (fuel : nat) (arrivals : list (list XEvent)) (s : PointerSystem)
    (w w' : World) (r : Result) :
  processEventQueue fuel arrivals s w = Returned r w' →
  ∃ c forwarded,
    taken w' = taken w ++ c ∧
    delivered w' = delivered w ++ forwarded ∧
    (∀ handler e, (handler, e) ∈ forwarded →
       e ∈ c ∧
       type e = GenericEvent ∧
       xcookie_extension e = mOpcode s ∧
       getHandler (event (xcookie_data e)) s = Some handler) ∧
    (∀ e, type e ≠ GenericEvent ∨ xcookie_extension e ≠ mOpcode s →
       ∀ handler, (handler, e) ∉ forwarded).
Proof.
  intros Hret.
  destruct (processEventQueue_returned fuel arrivals s w r w' Hret)
    as (_ & c & _ & Htk & _ & _ & Hdel & _).
  exists c, (omap (dispatch s) c).
  split; [exact Htk |]. split; [exact Hdel |].
  assert (Hfwd : ∀ handler e, (handler, e) ∈ omap (dispatch s) c →
            e ∈ c ∧ type e = GenericEvent ∧ xcookie_extension e = mOpcode s ∧
            getHandler (event (xcookie_data e)) s = Some handler).
  { intros handler e Hin.
    apply list_elem_of_omap in Hin as (e0 & Hin0 & Hd).
    apply dispatch_Some in Hd as (He & Ht & Hx & Hreg). cbn in He, Hreg. subst e0.
    repeat split; assumption. }
  split; [exact Hfwd |].
  intros e Hbad handler Hin.
  destruct (Hfwd handler e Hin) as (_ & Ht & Hx & _).
  destruct Hbad; contradiction.
Qed.

Lemma routing_miss_iff s e :
  routing_miss s e = true ↔
  type e = GenericEvent ∧ xcookie_extension e = mOpcode s ∧
  getHandler (event (xcookie_data e)) s = None.
Proof.
  unfold routing_miss, extension_event, getHandler.
  rewrite !andb_true_iff, !Z.eqb_eq, bool_decide_eq_true. tauto.
Qed.

Lemma dispatch_routing_miss s e : routing_miss s e = true → dispatch s e = None.
Proof.
  intros (Ht & Hx & Hreg)%routing_miss_iff. unfold dispatch, getHandler in *.
  rewrite Hreg. destruct (extension_event s e); reflexivity.
Qed.

Lemma dispatch_routed s e handler :
  type e = GenericEvent →
  xcookie_extension e = mOpcode s →
  getHandler (event (xcookie_data e)) s = Some handler →
  dispatch s e = Some (handler, e).
Proof.
  unfold dispatch, extension_event, getHandler. intros -> -> ->.
  rewrite !Z.eqb_refl. reflexivity.
Qed.

Lemma dispatch_not_routed s e :
  type e ≠ GenericEvent ∨ xcookie_extension e ≠ mOpcode s
  ∨ getHandler (event (xcookie_data e)) s = None →
  dispatch s e = None.
Proof.
  unfold dispatch, extension_event, getHandler. intros Hno.
  destruct (Z.eqb_spec (type e) GenericEvent) as [Ht |]; [| reflexivity].
  destruct (Z.eqb_spec (xcookie_extension e) (mOpcode s)) as [Hx |]; [| reflexivity].
  destruct Hno as [Hno | [Hno | Hno]]; [contradiction | contradiction |].
  cbn. rewrite Hno. reflexivity.
Qed.

(** C6. A call given enough fuel returns [OK] with the queue empty, having
    handled every event that was queued at entry.  The messages it sent
    are exactly one warning per routing miss among the events it took (an
    extension event whose target window has no registered handler), in the
    order taken, and no such event reached a handler.  A routing miss does
    not stop the loop: the events forwarded are exactly the extension
    events taken whose target window has a registered handler, each to
    that handler, in the order taken, wherever they stand relative to the
    misses.  A call that returns always returns [OK]. *)
Theorem processEventQueue_routing_miss_warns_and_continues
    (fuel : nat) (arrivals : list (list XEvent)) (s : PointerSystem) (w : World) :
  length (queue w) + length (concat arrivals) < fuel →
  (∀ f r w', processEventQueue f arrivals s w = Returned r w' → r = OK) ∧
  ∃ c w',
    processEventQueue fuel arrivals s w = Returned OK w' ∧
    queue w' = [] ∧
    taken w' = taken w ++ c ∧
    (∀ e, e ∈ queue w → e ∈ c) ∧
    messages w' =
      messages w ++ map (miss_warning s) (List.filter (routing_miss s) c) ∧
    (∀ e, routing_miss s e = true ↔
          type e = GenericEvent ∧ xcookie_extension e = mOpcode s ∧
          getHandler (event (xcookie_data e)) s = None) ∧
    (∀ e, severity (miss_warning s e) = MessageType.WARNING) ∧
    delivered w' = delivered w ++ omap (dispatch s) c ∧
    (∀ e handler,
       type e = GenericEvent → xcookie_extension e = mOpcode s →
       getHandler (event (xcookie_data e)) s = Some handler →
       dispatch s e = Some (handler, e)) ∧
    (∀ e,
       type e ≠ GenericEvent ∨ xcookie_extension e ≠ mOpcode s
       ∨ getHandler (event (xcookie_data e)) s = None →
       dispatch s e = None) ∧
    (∀ e handler,
       e ∈ c →
       type e = GenericEvent → xcookie_extension e = mOpcode s →
       getHandler (event (xcookie_data e)) s = Some handler →
       (handler, e) ∈ omap (dispatch s) c) ∧
    (∀ e handler, routing_miss s e = true → (handler, e) ∉ omap (dispatch s) c).
Proof.
  intros Hfuel. split.
  { intros f r w' Hret.
    apply (processEventQueue_returned f arrivals s w r w' Hret). }
  destruct (processEventQueue_total fuel arrivals s w Hfuel)
    as (c & w' & Hrun & Hq & Htk & Hc & Hmsg & Hdel & _).
  exists c, w'. split; [exact Hrun |]. split; [exact Hq |]. split; [exact Htk |].
  split. { intros e Hin. rewrite Hc. apply elem_of_app. left. exact Hin. }
  split; [exact Hmsg |].
  split; [apply routing_miss_iff |].
  split; [reflexivity |].
  split; [exact Hdel |].
  split; [apply dispatch_routed |].
  split; [apply dispatch_not_routed |].
  split.
  { intros e handler Hin Ht Hx Hreg. apply list_elem_of_omap.
    exists e. split; [exact Hin | exact (dispatch_routed s e handler Ht Hx Hreg)]. }
  intros e handler Hmiss Hin.
  apply list_elem_of_omap in Hin as (e0 & _ & Hd).
  pose proof (dispatch_Some s e0 _ Hd) as (He & _). cbn in He. subst e0.
  rewrite (dispatch_routing_miss s e Hmiss) in Hd. discriminate.
Qed.

(** * The windows of a process *)

(** Induction on window trees, with the hypothesis for every child. *)
Lemma WTree_forall_ind (P : WTree → Prop) :
  (∀ window prop tree_ok childWindows,
     Forall P childWindows → P (WNode window prop tree_ok childWindows)) →
  ∀ t, P t.
Proof.
  intros Hnode.
  fix IH 1. intros [window prop tree_ok childWindows].
  apply Hnode. induction childWindows as [| child rest IHrest]; constructor.
  - apply IH.
  - exact IHrest.
Qed.

(** The walk appends to the vector the matching windows of the tree, in
    pre-order. *)
Lemma getWindowsOfProcess_walk_preorder (pid : N) (t : WTree) :
  ∀ windows,
    getWindowsOfProcess_walk t pid windows =
    windows ++ map fst (List.filter (owned_by pid) (preorder t)).
Proof.
  induction t as [window prop tree_ok childWindows IH] using WTree_forall_ind;
    intros windows; cbn [getWindowsOfProcess_walk preorder List.filter].
  destruct tree_ok.
  - assert (Hkids : ∀ acc,
              fold_left (λ acc child, getWindowsOfProcess_walk child pid acc)
                        childWindows acc =
              acc ++ map fst (List.filter (owned_by pid)
                                (flat_map preorder childWindows))).
    { induction IH as [| child rest Hchild _ IHrest]; intros acc; cbn.
      - rewrite app_nil_r. reflexivity.
      - rewrite IHrest, Hchild, List.filter_app, map_app, app_assoc. reflexivity. }
    rewrite Hkids. unfold owned_by at 2. cbn [snd].
    destruct prop as [| | v]; cbn; try reflexivity.
    destruct (v =? pid)%N; cbn; [rewrite <- app_assoc |]; reflexivity.
  - unfold owned_by at 1. cbn [snd].
    destruct prop as [| | v]; cbn; rewrite ?app_nil_r; try reflexivity.
    destruct (v =? pid)%N; cbn; rewrite ?app_nil_r; reflexivity.
Qed.

Lemma preorder_in_tree (x : Window) (q : PropReply) (t : WTree) :
  (x, q) ∈ preorder t ↔ in_tree x q t.
Proof.
  induction t as [window prop tree_ok childWindows IH] using WTree_forall_ind;
    cbn [preorder].
  destruct tree_ok; cycle 1.
  - rewrite list_elem_of_singleton. split.
    + intros [= -> ->]. constructor.
    + intros Hin. inversion Hin; subst. reflexivity.
  - rewrite elem_of_cons. split.
    + intros [[= -> ->] | Hin]; [constructor |].
      apply list_elem_of_In, in_flat_map in Hin as (child & Hchild & Hin).
      apply list_elem_of_In in Hchild, Hin.
      rewrite Forall_forall in IH.
      eapply in_tree_child; [exact Hchild |]. apply IH; assumption.
    + intros Hin. inversion Hin as [| ? ? ? child Hchild Hbelow]; subst.
      * left. reflexivity.
      * right. rewrite Forall_forall in IH.
        apply list_elem_of_In, in_flat_map. exists child.
        split; apply list_elem_of_In; [exact Hchild |]. apply IH; assumption.
Qed.

Lemma NoDup_map_fst_filter {A B} (f : A * B → bool) (l : list (A * B)) :
  NoDup (map fst l) → NoDup (map fst (List.filter f l)).
Proof.
  induction l as [| a l IH]; cbn; [intros; constructor |].
  intros [Hnotin Hnd]%NoDup_cons. destruct (f a); cbn; [| apply IH, Hnd].
  apply NoDup_cons. split; [| apply IH, Hnd].
  intros Hin. apply Hnotin.
  apply list_elem_of_In, in_map_iff in Hin as (b & Hb & Hin).
  apply filter_In in Hin as [Hin _].
  apply list_elem_of_In, in_map_iff. exists b. split; assumption.
Qed.

Lemma owned_by_elem (pid : N) (x : Window) (l : list (Window * PropReply)) :
  x ∈ map fst (List.filter (owned_by pid) l) ↔ (x, PropValue pid) ∈ l.
Proof.
  rewrite !list_elem_of_In, in_map_iff. split.
  - intros ([y q] & Hx & Hin). cbn in Hx. subst y.
    apply filter_In in Hin as [Hin Hown].
    unfold owned_by in Hown. cbn in Hown.
    destruct q as [| | v]; try discriminate.
    apply N.eqb_eq in Hown. subst v. exact Hin.
  - intros Hin. exists (x, PropValue pid). split; [reflexivity |].
    apply filter_In. split; [exact Hin |].
    unfold owned_by. cbn. apply N.eqb_refl.
Qed.

Lemma NoDup_fst_functional {A B} (l : list (A * B)) (x : A) (a b : B) :
  NoDup (map fst l) → (x, a) ∈ l → (x, b) ∈ l → a = b.
Proof.
  induction l as [| [y c] l IH]; cbn; [intros _ Hin; inversion Hin |].
  intros [Hnotin Hnd]%NoDup_cons Ha Hb.
  assert (Hfst : ∀ d, (y, d) ∈ l → False).
  { intros d Hd. apply Hnotin.
    apply list_elem_of_In, in_map_iff. exists (y, d).
    split; [reflexivity | apply list_elem_of_In, Hd]. }
  apply elem_of_cons in Ha as [Ha | Ha]; apply elem_of_cons in Hb as [Hb | Hb].
  - congruence.
  - injection Ha as -> ->. destruct (Hfst _ Hb).
  - injection Hb as -> ->. destruct (Hfst _ Ha).
  - exact (IH Hnd Ha Hb).
Qed.

Lemma getWindowsOfProcess_run (srv : WTree) (pid : N) (windows : Ptr)
    (s : PointerSystem) (w : World) :
  windows ≠ NULL →
  let result := map fst (List.filter (owned_by pid) (preorder srv)) in
  let buffer := new_address (arrays w) in
  getWindowsOfProcess srv pid windows s w =
    (OK, Some (buffer, (Z.of_nat (length result) mod 2 ^ 32)%Z),
     set_arrays (<[buffer := result]> (arrays w)) w).
Proof.
  intros Hnn. unfold getWindowsOfProcess.
  destruct (N.eqb_spec windows NULL) as [Heq | _]; [contradiction |].
  rewrite getWindowsOfProcess_walk_preorder. reflexivity.
Qed.

(** C2. On a hierarchy in which every window occurs once, a call with a
    non-null output slot returns [OK] and hands out a new buffer holding
    the windows whose process-id property is present and equals [pid]:
    they are listed in pre-order, without duplicates, and a window is
    listed exactly when it is the root or a descendant reached through
    successful tree queries and owns such a property.  A window whose
    property is absent, unreadable or different is not listed, and the
    walk still visits its children; nothing below a window whose tree
    query fails is listed, and the walk goes on with its siblings. *)
Theorem getWindowsOfProcess_resolves
    (srv : WTree) (pid : N) (windows : Ptr) (s : PointerSystem) (w : World) :
  windows ≠ NULL →
  NoDup (map fst (preorder srv)) →
  ∃ buffer result w',
    getWindowsOfProcess srv pid windows s w =
      (OK, Some (buffer, (Z.of_nat (length result) mod 2 ^ 32)%Z), w') ∧
    buffer ≠ NULL ∧
    arrays w !! buffer = None ∧
    arrays w' !! buffer = Some result ∧
    result = map fst (List.filter (owned_by pid) (preorder srv)) ∧
    NoDup result ∧
    (∀ x, x ∈ result ↔ in_tree x (PropValue pid) srv) ∧
    (∀ x q, in_tree x q srv → q ≠ PropValue pid → x ∉ result) ∧
    (∀ x, (∀ q, ¬ in_tree x q srv) → x ∉ result).
Proof.
  intros Hnn Hnd.
  pose proof (getWindowsOfProcess_run srv pid windows s w Hnn) as Hrun.
  cbv zeta in Hrun.
  eexists _, _, _. split; [exact Hrun |].
  split; [apply new_address_not_null |].
  split; [apply new_address_not_live |].
  split; [apply lookup_insert_eq |].
  split; [reflexivity |].
  split; [apply NoDup_map_fst_filter, Hnd |].
  assert (Hmem : ∀ x, x ∈ map fst (List.filter (owned_by pid) (preorder srv))
                      ↔ in_tree x (PropValue pid) srv).
  { intros x. rewrite owned_by_elem. apply preorder_in_tree. }
  split; [exact Hmem |].
  split.
  - intros x q Hin Hq Hres. apply Hq.
    apply Hmem in Hres.
    apply preorder_in_tree in Hin, Hres.
    exact (NoDup_fst_functional _ x q (PropValue pid) Hnd Hin Hres).
  - intros x Hhidden Hres. apply Hmem in Hres. exact (Hhidden _ Hres).
Qed.

(** The walk on the two sample hierarchies. *)
Example getWindowsOfProcess_walk_sample :
  getWindowsOfProcess_walk sample_tree 7 [] = [11%N; 13%N].
Proof. reflexivity. Qed.

Example getWindowsOfProcess_walk_failures :
  getWindowsOfProcess_walk sample_tree_with_failures 7 []
    = [11%N; 18%N; 15%N; 17%N] ∧
  all_windows sample_tree_with_failures
    = [1%N; 11%N; 14%N; 18%N; 15%N; 16%N; 17%N].
Proof. split; reflexivity. Qed.

(** * Releasing the window array *)

(** C7, as the code has it.  [freeWindowsOfProcess] tests its argument
    against null and nothing else.  A null pointer is rejected with
    [ERROR_NULL_POINTER] and nothing changes.  Any other pointer is handed
    to [delete[]] as it is, and the call never answers it with an error:
    the array handed out by [getWindowsOfProcess] is released by a first
    call, which returns [OK]; a second call on the same pointer is not
    rejected but reaches [delete[]] on the released address, where the
    program has no defined behaviour. *)
Theorem freeWindowsOfProcess_checks_null_only
    (srv : WTree) (pid : N) (windows : Ptr) (s : PointerSystem) (w : World) :
  windows ≠ NULL →
  ∃ buffer n w1 w2,
    getWindowsOfProcess srv pid windows s w = (OK, Some (buffer, n), w1) ∧
    freeWindowsOfProcess NULL s w1 = Some (ERROR_NULL_POINTER, w1) ∧
    freeWindowsOfProcess buffer s w1 = Some (OK, w2) ∧
    arrays w2 !! buffer = None ∧
    messages w2 = messages w ∧
    delete_array buffer w2 = None ∧
    freeWindowsOfProcess buffer s w2 = None ∧
    (∀ p w0, p ≠ NULL →
       freeWindowsOfProcess p s w0 = (λ w', (OK, w')) <$> delete_array p w0).
Proof.
  intros Hnn.
  pose proof (getWindowsOfProcess_run srv pid windows s w Hnn) as Hrun.
  cbv zeta in Hrun.
  pose proof (new_address_not_null (arrays w)) as Hbuf.
  set (buffer := new_address (arrays w)) in *.
  assert (Hfree : ∀ p w0, p ≠ NULL →
            freeWindowsOfProcess p s w0 = (λ w', (OK, w')) <$> delete_array p w0).
  { intros p w0 Hp. unfold freeWindowsOfProcess.
    destruct (N.eqb_spec p NULL) as [Heq | _]; [contradiction |].
    destruct (delete_array p w0); reflexivity. }
  eexists buffer, _, _, _. split; [exact Hrun |].
  split; [reflexivity |].
  split.
  { rewrite (Hfree buffer _ Hbuf). unfold delete_array.
    cbn [arrays set_arrays]. rewrite lookup_insert_eq. reflexivity. }
  cbn [arrays set_arrays messages].
  split; [apply lookup_delete_eq |].
  split; [reflexivity |].
  assert (Hdead : ∀ A (w0 : World), arrays w0 = delete buffer A →
            delete_array buffer w0 = None).
  { intros A w0 Hw0. unfold delete_array. rewrite Hw0, lookup_delete_eq. reflexivity. }
  split; [eapply Hdead; reflexivity |].
  split; [| exact Hfree].
  rewrite (Hfree buffer _ Hbuf). erewrite Hdead; reflexivity.
Qed.

(** * The exported interface *)

Lemma initialize_result (srv : XServer) (s : PointerSystem) (w : World) :
  (initialize srv s w).1.1 = OK ∨ (initialize srv s w).1.1 = ERROR_API.
Proof.
  unfold initialize, XOpenDisplay.
  destruct (open_ok srv); [| right; reflexivity].
  destruct (ext_present srv); cbn [negb]; [| right; reflexivity].
  destruct (version_status srv =? BadRequest)%Z; [right | left]; reflexivity.
Qed.

(** C10. [PointerSystem_Create] allocates the object at a new, non-null
    address and stores that address through [handle]; [initialize] then
    runs on that object, already allocated, and its result, [OK] or
    [ERROR_API], is the result of the call.  Whatever the result, the
    address stored through [handle] is that of a live object, in the state
    [initialize] left it, and [PointerSystem_Destroy] on it releases it. *)
Theorem PointerSystem_Create_hands_out_live_system
    (srv : XServer) (messageCallback : Callback) (P : Process) :
  ∃ system r s' w' P1 P' P'',
    P1 = {| systems := <[system := PointerSystem_new messageCallback]> (systems P);
            world := world P |} ∧
    initialize srv (PointerSystem_new messageCallback) (world P1) = (r, s', w') ∧
    PointerSystem_Create srv messageCallback P = (r, Some system, P') ∧
    (r = OK ∨ r = ERROR_API) ∧
    system ≠ NULL ∧
    systems P !! system = None ∧
    systems P' !! system = Some s' ∧
    world P' = w' ∧
    (∀ other, other ≠ system → systems P' !! other = systems P !! other) ∧
    PointerSystem_Destroy system P' = Some (OK, P'') ∧
    systems P'' = systems P.
Proof.
  pose proof (new_address_not_null (systems P)) as Hnn.
  pose proof (new_address_not_live (systems P)) as Hfresh.
  pose proof (initialize_result srv (PointerSystem_new messageCallback) (world P)) as Hres.
  unfold PointerSystem_Create. cbn [world systems].
  destruct (initialize srv (PointerSystem_new messageCallback) (world P))
    as [[r s'] w'] eqn:Hinit.
  set (system := new_address (systems P)) in *.
  eexists system, r, s', w', _, _, _.
  split; [reflexivity |]. cbn [world].
  split; [exact Hinit |].
  split; [reflexivity |].
  split; [exact Hres |].
  split; [exact Hnn |].
  split; [exact Hfresh |]. cbn [systems world].
  split; [apply lookup_insert_eq |].
  split; [reflexivity |].
  split.
  { intros other Hne. rewrite !lookup_insert_ne by congruence. reflexivity. }
  unfold PointerSystem_Destroy. cbn [systems world].
  destruct (N.eqb_spec system NULL) as [Heq | _]; [contradiction |].
  rewrite lookup_insert_eq. split; [reflexivity |]. cbn [systems].
  rewrite insert_insert_eq, delete_insert_eq. apply delete_id, Hfresh.
Qed.

(** * Concrete runs *)

Lemma initialize_rolls_back_witness :
  open_ok server_without_xi2 = true ∧
  (ext_present server_without_xi2 = false
   ∨ version_status server_without_xi2 = BadRequest) ∧
  ∃ s' w',
    initialize server_without_xi2 (PointerSystem_new 1%N) (sample_world [])
      = (ERROR_API, s', w') ∧
    mDisplay s' = None ∧
    displays w' = displays (sample_world []).
Proof.
  assert (H1 : open_ok server_without_xi2 = true) by reflexivity.
  assert (H2 : ext_present server_without_xi2 = false
               ∨ version_status server_without_xi2 = BadRequest)
    by (right; reflexivity).
  destruct (initialize_rolls_back server_without_xi2 (PointerSystem_new 1%N)
              (sample_world []) H1 H2) as (s' & w' & Hrun & Hnull & Hdisp & _).
  split; [exact H1 |]. split; [exact H2 |].
  exists s', w'. split; [exact Hrun |]. split; [exact Hnull | exact Hdisp].
Defined.

Lemma createHandler_rejects_duplicate_witness :
  mPointerHandlers sample_system !! 7%N = Some 100%N ∧
  ∃ w', createHandler always_OK 7%N 2%N sample_system (sample_world [])
          = (ERROR_DUPLICATE_ITEM, None, sample_system, w') ∧
        handlers w' = handlers (sample_world []).
Proof.
  assert (H1 : mPointerHandlers sample_system !! 7%N = Some 100%N) by reflexivity.
  destruct (createHandler_rejects_duplicate always_OK 7%N 2%N sample_system
              (sample_world []) 100%N H1) as ((w' & Hrun & Hheap & _) & _).
  split; [exact H1 |]. exists w'. split; [exact Hrun | exact Hheap].
Defined.

Lemma createHandler_registers_before_initialize_witness :
  mPointerHandlers sample_system !! 8%N = None ∧
  ∃ handler obj s1 w1,
    createHandler always_ERROR_API 8%N 2%N sample_system (sample_world [])
      = (always_ERROR_API obj s1 w1, Some handler, s1, w1) ∧
    getHandler 8%N s1 = Some handler ∧
    handlers w1 !! handler = Some obj.
Proof.
  assert (H1 : mPointerHandlers sample_system !! 8%N = None) by reflexivity.
  destruct (createHandler_registers_before_initialize always_ERROR_API 8%N 2%N
              sample_system (sample_world []) H1)
    as (handler & obj & s1 & w1 & Hrun & _ & _ & _ & Hlive & _ & Hreg & _).
  split; [exact H1 |]. exists handler, obj, s1, w1.
  split; [exact Hrun |]. split; [exact Hreg | exact Hlive].
Defined.

Lemma destroyHandler_detaches_and_releases_witness :
  handlers (sample_world []) !! 100%N = Some sample_handler ∧
  ∃ s' w',
    destroyHandler 100%N sample_system (sample_world []) = Some (OK, s', w') ∧
    getHandler 7%N s' = None ∧
    handlers w' !! 100%N = None ∧
    destroyHandler 100%N s' w' = None.
Proof.
  assert (H1 : handlers (sample_world []) !! 100%N = Some sample_handler)
    by reflexivity.
  destruct (destroyHandler_detaches_and_releases 100%N sample_handler
              sample_system (sample_world []) H1)
    as (s' & w' & Hrun & _ & Hgone & _ & _ & _ & Hdead & _ & Hagain).
  split; [exact H1 |]. exists s', w'.
  split; [exact Hrun |]. split; [exact Hgone |]. split; [exact Hdead | exact Hagain].
Defined.

(** C9, as the claim has it, fails: the handler at address 100 is
    registered for window 7; a first [destroyHandler] returns [OK], erases
    the entry and releases the handler; a second call on the same pointer,
    the handler being detached by then, does not return [OK]: it reads the
    window out of the released object and has no result. *)
Lemma destroyHandler_twice_counterexample :
  match destroyHandler 100%N sample_system (sample_world []) with
  | Some (r, s', w') =>
      r = OK ∧ getHandler 7%N s' = None ∧ handlers w' !! 100%N = None ∧
      destroyHandler 100%N s' w' = None ∧
      destroyHandler 100%N s' w' ≠ Some (OK, s', w')
  | None => False
  end.
Proof. vm_compute. repeat split. discriminate. Qed.

Lemma processEventQueue_drains_until_empty_witness :
  length (queue (sample_world [generic_event 131 7%N]))
    + length (concat [[generic_event 131 7%N; generic_event 131 9%N]]) < 5 ∧
  ∃ (c : list XEvent) w',
    processEventQueue 5 [[generic_event 131 7%N; generic_event 131 9%N]]
      sample_system (sample_world [generic_event 131 7%N]) = Returned OK w' ∧
    queue w' = [] ∧
    taken w' = c ∧
    length c = 3.
Proof.
  assert (H1 : length (queue (sample_world [generic_event 131 7%N]))
               + length (concat [[generic_event 131 7%N; generic_event 131 9%N]]) < 5)
    by (simpl; lia).
  destruct (processEventQueue_drains_until_empty 5
              [[generic_event 131 7%N; generic_event 131 9%N]]
              sample_system (sample_world [generic_event 131 7%N]) H1)
    as (_ & c & w' & Hrun & Hq & Htk & _ & _ & Hcount).
  split; [exact H1 |]. exists c, w'. split; [exact Hrun |]. split; [exact Hq |].
  split; [exact Htk |].
  apply (Hcount _ eq_refl). discriminate.
Defined.

(** C1, as the claim has it, fails: one event is queued at entry, two more
    arrive while it is handled, and the call takes all three. *)
Lemma processEventQueue_snapshot_counterexample :
  let w := sample_world [generic_event 131 7%N] in
  let o := processEventQueue 4 [[generic_event 131 7%N; generic_event 131 9%N]]
             sample_system w in
  length (queue w) = 1 ∧
  events_consumed w o = Some 3 ∧
  events_consumed w o ≠ Some (length (queue w)).
Proof.
  cbv zeta. split; [reflexivity |]. split; [vm_compute; reflexivity |].
  vm_compute. discriminate.
Qed.

Lemma processEventQueue_forwards_only_extension_events_witness :
  processEventQueue 4 [] sample_system (sample_world mixed_queue)
    = Returned OK mixed_queue_final ∧
  ∀ handler, ((handler, generic_event 99 7%N) ∉ delivered mixed_queue_final)
             ∧ ((handler, key_press) ∉ delivered mixed_queue_final).
Proof.
  assert (H1 : processEventQueue 4 [] sample_system (sample_world mixed_queue)
               = Returned OK mixed_queue_final) by (vm_compute; reflexivity).
  destruct (processEventQueue_forwards_only_extension_events 4 [] sample_system
              (sample_world mixed_queue) mixed_queue_final OK H1)
    as (c & forwarded & _ & Hdel & _ & Hnot).
  split; [exact H1 |].
  intros handler. rewrite Hdel. cbn [delivered sample_world app].
  split; apply Hnot.
  - right. vm_compute. discriminate.
  - left. vm_compute. discriminate.
Defined.

Lemma processEventQueue_routing_miss_warns_and_continues_witness :
  length (queue (sample_world queue_with_miss))
    + length (concat ([] : list (list XEvent))) < 3 ∧
  ∃ w',
    processEventQueue 3 [] sample_system (sample_world queue_with_miss)
      = Returned OK w' ∧
    messages w' = [miss_warning sample_system (generic_event 131 9%N)] ∧
    text (miss_warning sample_system (generic_event 131 9%N))
      = "Failed to retrieve handler for window 9" ∧
    taken w' = queue_with_miss ∧
    delivered w' = [(100%N, generic_event 131 7%N)].
Proof.
  assert (H1 : length (queue (sample_world queue_with_miss))
               + length (concat ([] : list (list XEvent))) < 3) by (simpl; lia).
  destruct (processEventQueue_routing_miss_warns_and_continues 3 []
              sample_system (sample_world queue_with_miss) H1)
    as (_ & c & w' & Hrun & _ & Htk & _ & Hmsg & _ & _ & Hdel & _).
  split; [exact H1 |]. exists w'. split; [exact Hrun |].
  assert (Hc : c = queue_with_miss).
  { assert (Hfinal : final_world (processEventQueue 3 [] sample_system
                        (sample_world queue_with_miss))
                     = Some w') by (rewrite Hrun; reflexivity).
    vm_compute in Hfinal. injection Hfinal as <-. symmetry. exact Htk. }
  subst c. split; [exact Hmsg |]. split; [reflexivity |].
  split; [exact Htk | exact Hdel].
Defined.

Lemma getWindowsOfProcess_resolves_witness :
  500%N ≠ NULL ∧
  NoDup (map fst (preorder sample_tree)) ∧
  ∃ buffer w',
    getWindowsOfProcess sample_tree 7 500 sample_system (sample_world [])
      = (OK, Some (buffer, 2%Z), w') ∧
    arrays w' !! buffer = Some [11%N; 13%N].
Proof.
  assert (H1 : 500%N ≠ NULL) by (unfold NULL; lia).
  assert (H2 : NoDup (map fst (preorder sample_tree))).
  { apply (bool_decide_unpack _). vm_compute. exact I. }
  destruct (getWindowsOfProcess_resolves sample_tree 7 500 sample_system
              (sample_world []) H1 H2)
    as (buffer & result & w' & Hrun & _ & _ & Hbuf & Hres & _).
  split; [exact H1 |]. split; [exact H2 |].
  exists buffer, w'. subst result. split; [exact Hrun | exact Hbuf].
Defined.

Lemma freeWindowsOfProcess_checks_null_only_witness :
  500%N ≠ NULL ∧
  ∃ buffer w1 w2,
    (getWindowsOfProcess sample_tree 7 500 sample_system (sample_world [])).2 = w1 ∧
    freeWindowsOfProcess NULL sample_system w1 = Some (ERROR_NULL_POINTER, w1) ∧
    freeWindowsOfProcess buffer sample_system w1 = Some (OK, w2) ∧
    freeWindowsOfProcess buffer sample_system w2 = None.
Proof.
  assert (H1 : 500%N ≠ NULL) by (unfold NULL; lia).
  destruct (freeWindowsOfProcess_checks_null_only sample_tree 7 500 sample_system
              (sample_world []) H1)
    as (buffer & n & w1 & w2 & Hget & Hnull & Hfree1 & _ & _ & _ & Hfree2 & _).
  split; [exact H1 |]. exists buffer, w1, w2.
  split; [rewrite Hget; reflexivity |]. split; [exact Hnull |].
  split; [exact Hfree1 | exact Hfree2].
Defined.

(** C7, as the claim has it, fails: the array handed out for the sample
    hierarchy sits at address 1; the first release returns [OK] and leaves
    the world as it was before the array was handed out; the second call
    on the same pointer is not answered with an error: the pointer is not
    null, so it goes to [delete[]], for which the address is dead. *)
Lemma freeWindowsOfProcess_twice_counterexample :
  let '(r0, out, w1) :=
    getWindowsOfProcess sample_tree 7 500 sample_system (sample_world []) in
  r0 = OK ∧ out = Some (1%N, 2%Z) ∧ arrays w1 !! 1%N = Some [11%N; 13%N] ∧
  freeWindowsOfProcess 1 sample_system w1 = Some (OK, sample_world []) ∧
  (1 =? NULL)%N = false ∧
  delete_array 1 (sample_world []) = None ∧
  freeWindowsOfProcess 1 sample_system (sample_world []) = None ∧
  freeWindowsOfProcess 1 sample_system (sample_world [])
    ≠ Some (ERROR_NULL_POINTER, sample_world []).
Proof. vm_compute. repeat split. discriminate. Qed.

(** Bootstrap failure behind [PointerSystem_Create]: the server cannot be
    reached, the call returns [ERROR_API], and the address stored through
    [handle] is that of a live object. *)
Example PointerSystem_Create_server_down :
  let '(r, handle, P') := PointerSystem_Create server_down 1%N empty_process in
  r = ERROR_API ∧ handle = Some 1%N ∧
  systems P' !! 1%N = Some (PointerSystem_new 1%N).
Proof. vm_compute. repeat split. Qed.

(** A failed bootstrap followed by a successful one on the same object. *)
Example initialize_twice_sample :
  let '(r1, s1, w1) :=
    initialize server_without_extension (PointerSystem_new 1%N) (sample_world []) in
  let '(r2, s2, w2) := initialize server_ready s1 w1 in
  r1 = ERROR_API ∧ mDisplay s1 = None ∧ r2 = OK ∧ mDisplay s2 = Some 1%N
  ∧ mOpcode s2 = 131%Z.
Proof. vm_compute. repeat split. Qed.

(** * Further properties of the bootstrap *)

(** X1. [initialize] returns [OK] exactly when the display opens, the
    extension is present and the version query does not answer
    [BadRequest]; the version written back by the server plays no part. *)
Theorem initialize_OK_iff (srv : XServer) (s : PointerSystem) (w : World) :
  (initialize srv s w).1.1 = OK ↔ bootstrap_succeeds srv.
Proof.
  unfold bootstrap_succeeds, initialize, XOpenDisplay.
  destruct (open_ok srv); cbn; [| split; [discriminate | intros (? & _); discriminate]].
  destruct (ext_present srv); cbn;
    [| split; [discriminate | intros (_ & ? & _); discriminate]].
  destruct (Z.eqb_spec (version_status srv) BadRequest) as [Heq | Hne]; cbn.
  - split; [discriminate | intros (_ & _ & Hv); contradiction].
  - split; [intros _; repeat split; assumption | reflexivity].
Qed.

(** What [initialize] leaves alone, and the connections after it. *)
Lemma initialize_frame (srv : XServer) (s : PointerSystem) (w : World) :
  mPointerHandlers (initialize srv s w).1.2 = mPointerHandlers s ∧
  handlers (initialize srv s w).2 = handlers w ∧
  arrays (initialize srv s w).2 = arrays w ∧
  stale_deletes (initialize srv s w).2 = stale_deletes w ∧
  queue (initialize srv s w).2 = queue w.
Proof.
  unfold initialize, XOpenDisplay.
  destruct (open_ok srv); [| repeat split].
  destruct (ext_present srv); cbn [negb]; [| repeat split].
  destruct (version_status srv =? BadRequest)%Z; repeat split.
Qed.

Lemma initialize_connections (srv : XServer) (s : PointerSystem) (w : World) :
  displays (initialize srv s w).2 = held (initialize srv s w).1.2 ∪ displays w ∧
  held (initialize srv s w).1.2 ## displays w.
Proof.
  pose proof (XOpenDisplay_fresh w) as Hfresh.
  assert (Hnone : ∀ D : gset Display, D = (∅ : gset Display) ∪ D).
  { intros D. symmetry. apply (left_id_L ∅ (∪)). }
  assert (Hdisj : (∅ : gset Display) ## displays w) by apply disjoint_empty_l.
  unfold initialize, XOpenDisplay.
  destruct (open_ok srv); [| split; [apply Hnone | exact Hdisj]].
  destruct (ext_present srv); cbn [negb].
  2:{ cbn [fst snd]. rewrite open_then_close. split; [apply Hnone | exact Hdisj]. }
  destruct (version_status srv =? BadRequest)%Z.
  { cbn [fst snd]. rewrite open_then_close. split; [apply Hnone | exact Hdisj]. }
  cbn [fst snd held mDisplay set_mOpcode set_mDisplay].
  split; [reflexivity | apply disjoint_singleton_l, Hfresh].
Qed.

(** X2. Whatever the outcome, and whatever the object held before, after
    [initialize] the open connections are those that were open before
    together with the one the object now holds, which is a new one; the
    object holds a connection exactly when the result is [OK].  The
    registry, the heap and the event queue are not touched. *)
Theorem initialize_holds_what_it_opened
    (srv : XServer) (s : PointerSystem) (w : World) :
  ∃ r s' w',
    initialize srv s w = (r, s', w') ∧
    displays w' = held s' ∪ displays w ∧
    held s' ## displays w ∧
    (r = OK ↔ is_Some (mDisplay s')) ∧
    mPointerHandlers s' = mPointerHandlers s ∧
    mMessageCallback s' = mMessageCallback s ∧
    handlers w' = handlers w ∧
    arrays w' = arrays w ∧
    stale_deletes w' = stale_deletes w ∧
    queue w' = queue w.
Proof.
  pose proof (XOpenDisplay_fresh w) as Hfresh.
  assert (Hnone : ∀ D : gset Display, D = (∅ : gset Display) ∪ D).
  { intros D. symmetry. apply (left_id_L ∅ (∪)). }
  assert (Hdisj : (∅ : gset Display) ## displays w) by apply disjoint_empty_l.
  assert (Hno : ∀ r, r ≠ OK → r = OK ↔ is_Some (@None Display)).
  { intros r Hr. split; [contradiction | intros [? [=]]]. }
  unfold initialize, XOpenDisplay.
  destruct (open_ok srv).
  2:{ eexists _, _, _. split; [reflexivity |]. cbn.
      split; [apply Hnone |]. split; [exact Hdisj |].
      split; [apply Hno; discriminate |]. repeat split. }
  destruct (ext_present srv); cbn [negb].
  2:{ eexists _, _, _. split; [reflexivity |].
      split; [rewrite open_then_close; apply Hnone |]. cbn.
      split; [exact Hdisj |]. split; [apply Hno; discriminate |]. repeat split. }
  destruct (version_status srv =? BadRequest)%Z.
  { eexists _, _, _. split; [reflexivity |].
    split; [rewrite open_then_close; apply Hnone |]. cbn.
    split; [exact Hdisj |]. split; [apply Hno; discriminate |]. repeat split. }
  eexists _, _, _. split; [reflexivity |]. cbn.
  split; [reflexivity |].
  split; [apply disjoint_singleton_l, Hfresh |].
  split; [split; [intros _; eexists; reflexivity | reflexivity] |].
  repeat split.
Qed.

(** X3. [initialize] reports each failure once: the messages it sends are
    a single [ERROR], addressed to the object's message callback, when the
    result is not [OK], and none when it is. *)
Theorem initialize_reports_failure_once
    (srv : XServer) (s : PointerSystem) (w : World) :
  ∃ r s' w' new,
    initialize srv s w = (r, s', w') ∧
    messages w' = messages w ++ new ∧
    Forall (λ m, severity m = MessageType.ERROR ∧ sink m = mMessageCallback s) new ∧
    length new = match r with OK => 0 | _ => 1 end.
Proof.
  unfold initialize, XOpenDisplay.
  destruct (open_ok srv).
  2:{ eexists _, _, _, [_]. split; [reflexivity |]. cbn.
      split; [reflexivity |]. split; [| reflexivity].
      constructor; [split; reflexivity | constructor]. }
  destruct (ext_present srv); cbn [negb].
  2:{ eexists _, _, _, [_]. split; [reflexivity |]. cbn.
      split; [reflexivity |]. split; [| reflexivity].
      constructor; [split; reflexivity | constructor]. }
  destruct (version_status srv =? BadRequest)%Z.
  { eexists _, _, _, [_]. split; [reflexivity |]. cbn.
    split; [reflexivity |]. split; [| reflexivity].
    constructor; [split; reflexivity | constructor]. }
  eexists _, _, _, []. split; [reflexivity |]. cbn.
  split; [symmetry; apply app_nil_r |]. split; [constructor | reflexivity].
Qed.

(** Releasing handlers touches the handler heap and the record of stale
    releases only. *)
Lemma delete_handler_frame (p : Ptr) (w : World) :
  displays (delete_handler p w) = displays w ∧
  queue (delete_handler p w) = queue w ∧
  arrays (delete_handler p w) = arrays w ∧
  messages (delete_handler p w) = messages w ∧
  delivered (delete_handler p w) = delivered w ∧
  taken (delete_handler p w) = taken w.
Proof. unfold delete_handler. destruct (handlers w !! p); repeat split. Qed.

Lemma delete_handlers_frame (m : gmap Window Ptr) (w : World) :
  let w' := map_fold (λ _ handler acc, delete_handler handler acc) w m in
  displays w' = displays w ∧ queue w' = queue w ∧ arrays w' = arrays w ∧
  messages w' = messages w ∧ delivered w' = delivered w ∧ taken w' = taken w.
Proof.
  cbv zeta.
  apply (map_fold_weak_ind
           (λ r (_ : gmap Window Ptr),
              displays r = displays w ∧ queue r = queue w ∧ arrays r = arrays w ∧
              messages r = messages w ∧ delivered r = delivered w ∧
              taken r = taken w)).
  - repeat split.
  - intros _ p _ r _ (H1 & H2 & H3 & H4 & H5 & H6).
    destruct (delete_handler_frame p r) as (G1 & G2 & G3 & G4 & G5 & G6).
    repeat split; congruence.
Qed.

Lemma PointerSystem_delete_displays (s : PointerSystem) (w : World) :
  displays (PointerSystem_delete s w) = displays w ∖ held s.
Proof.
  unfold PointerSystem_delete, held.
  destruct (delete_handlers_frame (mPointerHandlers s) w) as (Hd & _).
  cbv zeta in Hd.
  destruct (mDisplay s); cbn; rewrite Hd; [reflexivity |].
  symmetry. apply difference_empty_L.
Qed.

(** X4. [initialize] does not close a connection the object already holds:
    after two successful calls on the same object two new connections are
    open, the object holds the second only, and the destructor closes that
    one and leaves the first open. *)
Theorem initialize_twice_leaves_first_connection_open
    (srv1 srv2 : XServer) (s : PointerSystem) (w : World) :
  bootstrap_succeeds srv1 →
  bootstrap_succeeds srv2 →
  ∃ d1 d2 s1 w1 s2 w2,
    initialize srv1 s w = (OK, s1, w1) ∧
    initialize srv2 s1 w1 = (OK, s2, w2) ∧
    mDisplay s1 = Some d1 ∧
    mDisplay s2 = Some d2 ∧
    d1 ≠ d2 ∧
    (d1 ∉ displays w) ∧
    (d2 ∉ displays w) ∧
    displays w2 = {[d2]} ∪ ({[d1]} ∪ displays w) ∧
    displays (PointerSystem_delete s2 w2) = {[d1]} ∪ displays w.
Proof.
  intros Hok1 Hok2.
  pose proof (initialize_success srv1 s w Hok1) as Hrun1.
  set (d1 := fresh (displays w)) in *.
  set (s1 := set_mOpcode (ext_opcode srv1) (set_mDisplay (Some d1) s)) in *.
  set (w1 := set_displays ({[d1]} ∪ displays w) w) in *.
  pose proof (initialize_success srv2 s1 w1 Hok2) as Hrun2.
  set (d2 := fresh (displays w1)) in *.
  pose proof (XOpenDisplay_fresh w) as Hf1. fold d1 in Hf1.
  pose proof (XOpenDisplay_fresh w1) as Hf2. fold d2 in Hf2.
  cbn [displays w1 set_displays] in Hf2.
  assert (Hne : d1 ≠ d2).
  { intros Heq. apply Hf2. rewrite <- Heq. apply elem_of_union_l, elem_of_singleton.
    reflexivity. }
  assert (Hd2 : d2 ∉ displays w).
  { intros Hin. apply Hf2. apply elem_of_union_r, Hin. }
  eexists d1, d2, s1, w1, _, _.
  split; [exact Hrun1 |]. split; [exact Hrun2 |].
  split; [reflexivity |]. split; [reflexivity |].
  split; [exact Hne |]. split; [exact Hf1 |]. split; [exact Hd2 |].
  split; [reflexivity |].
  rewrite PointerSystem_delete_displays. cbn.
  clear Hrun1 Hrun2 Hf2. clearbody d2. clearbody d1.
  apply set_eq. intros x.
  rewrite elem_of_difference, !elem_of_union, !elem_of_singleton. split.
  - intros [[Hx | [Hx | Hin]] Hn]; [contradiction | left; exact Hx | right; exact Hin].
  - intros [Hx | Hin].
    + split; [right; left; exact Hx | congruence].
    + split; [right; right; exact Hin | intros Hx; subst x; contradiction].
Qed.

Lemma initialize_twice_leaves_first_connection_open_witness :
  bootstrap_succeeds server_ready ∧
  ∃ d1 s2 w2,
    initialize server_ready
      (initialize server_ready (PointerSystem_new 1%N) (sample_world [])).1.2
      (initialize server_ready (PointerSystem_new 1%N) (sample_world [])).2
      = (OK, s2, w2) ∧
    (d1 ∉ displays (sample_world [])) ∧
    displays (PointerSystem_delete s2 w2) = {[d1]} ∪ displays (sample_world []).
Proof.
  assert (H1 : bootstrap_succeeds server_ready).
  { repeat split. vm_compute. discriminate. }
  destruct (initialize_twice_leaves_first_connection_open server_ready server_ready
              (PointerSystem_new 1%N) (sample_world []) H1 H1)
    as (d1 & d2 & s1 & w1 & s2 & w2 & Hrun1 & Hrun2 & _ & _ & _ & Hf1 & _ & _ & Hleak).
  split; [exact H1 |]. exists d1, s2, w2.
  rewrite Hrun1. cbn [fst snd]. split; [exact Hrun2 |]. split; [exact Hf1 | exact Hleak].
Defined.

(** * Further properties of the registry *)

Lemma set_mPointerHandlers_same (s : PointerSystem) (m m' : gmap Window Ptr) :
  m' = mPointerHandlers s →
  set_mPointerHandlers m' (set_mPointerHandlers m s) = s.
Proof. intros ->. destruct s. reflexivity. Qed.

Lemma set_handlers_same (w : World) (H H' : gmap Ptr PointerHandler) :
  H' = handlers w → set_handlers H' (set_handlers H w) = w.
Proof. intros ->. destruct w. reflexivity. Qed.

Lemma set_arrays_same (w : World) (A A' : gmap Ptr (list Window)) :
  A' = arrays w → set_arrays A' (set_arrays A w) = w.
Proof. intros ->. destruct w. reflexivity. Qed.

(** X5. [createHandler] followed by [destroyHandler] on the handle it
    stored undoes it: when [window] has no entry, the pair of calls leaves
    the object and the world exactly as they were, whatever the handler's
    initialization returned. *)
Theorem createHandler_then_destroyHandler
    (init : PointerHandler → PointerSystem → World → Result)
    (window : Window) (cb : Callback) (s : PointerSystem) (w : World) :
  mPointerHandlers s !! window = None →
  ∃ r handler s1 w1,
    createHandler init window cb s w = (r, Some handler, s1, w1) ∧
    getHandler window s1 = Some handler ∧
    destroyHandler handler s1 w1 = Some (OK, s, w).
Proof.
  intros Hnone.
  pose proof (createHandler_fresh init window cb s w Hnone) as Hrun.
  cbv zeta in Hrun.
  pose proof (new_address_not_live (handlers w)) as Hfresh.
  set (handler := new_address (handlers w)) in *.
  eexists _, handler, _, _. split; [exact Hrun |].
  split; [apply lookup_insert_eq |].
  unfold destroyHandler, delete_handler. cbn [handlers set_handlers].
  rewrite lookup_insert_eq. cbn [getWindow hWindow mPointerHandlers set_mPointerHandlers].
  rewrite lookup_insert_eq.
  rewrite set_mPointerHandlers_same by (apply delete_insert_id, Hnone).
  rewrite set_handlers_same by (apply delete_insert_id, Hfresh).
  reflexivity.
Qed.

Lemma createHandler_then_destroyHandler_witness :
  mPointerHandlers sample_system !! 8%N = None ∧
  ∃ r handler s1 w1,
    createHandler always_ERROR_API 8%N 2%N sample_system (sample_world [])
      = (r, Some handler, s1, w1) ∧
    destroyHandler handler s1 w1 = Some (OK, sample_system, sample_world []).
Proof.
  assert (H1 : mPointerHandlers sample_system !! 8%N = None) by reflexivity.
  destruct (createHandler_then_destroyHandler always_ERROR_API 8%N 2%N
              sample_system (sample_world []) H1)
    as (r & handler & s1 & w1 & Hrun & _ & Hback).
  split; [exact H1 |]. exists r, handler, s1, w1. split; [exact Hrun | exact Hback].
Defined.

(** X6. [createHandler] keeps the registry well formed: if every entry
    designates a live handler recording the window it is registered for,
    this still holds after the call, on both of its paths. *)
Theorem createHandler_preserves_registry_wf
    (init : PointerHandler → PointerSystem → World → Result)
    (window : Window) (cb : Callback) (s : PointerSystem) (w : World) :
  registry_wf s w →
  registry_wf (createHandler init window cb s w).1.2
              (createHandler init window cb s w).2.
Proof.
  intros Hwf.
  destruct (mPointerHandlers s !! window) as [p |] eqn:Hentry.
  - rewrite (createHandler_duplicate init window cb s w p Hentry). cbn [fst snd].
    exact Hwf.
  - pose proof (createHandler_fresh init window cb s w Hentry) as Hrun.
    cbv zeta in Hrun. rewrite Hrun. cbn [fst snd]. clear Hrun.
    pose proof (new_address_not_live (handlers w)) as Hfresh.
    intros k q. cbn [mPointerHandlers set_mPointerHandlers handlers set_handlers].
    destruct (decide (k = window)) as [-> | Hk].
    + rewrite lookup_insert_eq. intros [= <-].
      eexists. rewrite lookup_insert_eq. split; reflexivity.
    + rewrite lookup_insert_ne by congruence. intros Hq.
      destruct (Hwf k q Hq) as (obj & Hlive & Hwin).
      exists obj. split; [| exact Hwin].
      rewrite lookup_insert_ne; [exact Hlive |]. intros <-. congruence.
Qed.

Lemma sample_registry_wf : registry_wf sample_system (sample_world []).
Proof.
  intros k q Hq.
  destruct (decide (k = 7%N)) as [-> | Hk].
  - vm_compute in Hq. injection Hq as <-. exists sample_handler. split; reflexivity.
  - unfold sample_system in Hq. cbn in Hq.
    rewrite lookup_singleton_ne in Hq by congruence. discriminate.
Defined.

Lemma createHandler_preserves_registry_wf_witness :
  registry_wf sample_system (sample_world []) ∧
  registry_wf
    (createHandler always_OK 8%N 2%N sample_system (sample_world [])).1.2
    (createHandler always_OK 8%N 2%N sample_system (sample_world [])).2.
Proof.
  split; [exact sample_registry_wf |].
  exact (createHandler_preserves_registry_wf always_OK 8%N 2%N sample_system
           (sample_world []) sample_registry_wf).
Defined.

(** X7. [destroyHandler] on a live handler keeps the registry well
    formed, whether or not that handler is the one registered for its
    window. *)
Theorem destroyHandler_preserves_registry_wf
    (handler : Ptr) (obj : PointerHandler) (s : PointerSystem) (w : World) :
  registry_wf s w →
  handlers w !! handler = Some obj →
  ∃ s' w',
    destroyHandler handler s w = Some (OK, s', w') ∧
    registry_wf s' w'.
Proof.
  intros Hwf Hlive.
  assert (Hkeep : ∀ k q, k ≠ getWindow obj → mPointerHandlers s !! k = Some q →
            ∃ obj', delete handler (handlers w) !! q = Some obj' ∧ getWindow obj' = k).
  { intros k q Hk Hq. destruct (Hwf k q Hq) as (obj' & Hq' & Hwin).
    exists obj'. split; [| exact Hwin].
    rewrite lookup_delete_ne; [exact Hq' |]. intros <-. congruence. }
  unfold destroyHandler, delete_handler. rewrite Hlive.
  destruct (mPointerHandlers s !! getWindow obj) as [p |] eqn:Hentry.
  - eexists _, _. split; [reflexivity |].
    intros k q. cbn [mPointerHandlers set_mPointerHandlers handlers set_handlers].
    destruct (decide (k = getWindow obj)) as [-> | Hk].
    + rewrite lookup_delete_eq. discriminate.
    + rewrite lookup_delete_ne by congruence. apply Hkeep, Hk.
  - eexists _, _. split; [reflexivity |].
    intros k q Hq. cbn [handlers set_handlers].
    apply Hkeep; [| exact Hq]. intros ->. congruence.
Qed.

Lemma destroyHandler_preserves_registry_wf_witness :
  registry_wf sample_system (sample_world []) ∧
  handlers (sample_world []) !! 100%N = Some sample_handler ∧
  ∃ s' w',
    destroyHandler 100%N sample_system (sample_world []) = Some (OK, s', w') ∧
    registry_wf s' w'.
Proof.
  assert (H2 : handlers (sample_world []) !! 100%N = Some sample_handler)
    by reflexivity.
  split; [exact sample_registry_wf |]. split; [exact H2 |].
  exact (destroyHandler_preserves_registry_wf 100%N sample_handler sample_system
           (sample_world []) sample_registry_wf H2).
Defined.

(** X8. On a well-formed registry every event a completed
    [processEventQueue] forwards goes to a live handler, and that handler
    records the event's target window: the call never reaches through a
    dangling registry entry. *)
Theorem processEventQueue_forwards_to_live_handlers
    (fuel : nat) (arrivals : list (list XEvent)) (s : PointerSystem)
    (w w' : World) (r : Result) :
  registry_wf s w →
  processEventQueue fuel arrivals s w = Returned r w' →
  ∃ forwarded,
    delivered w' = delivered w ++ forwarded ∧
    ∀ handler e, (handler, e) ∈ forwarded →
      ∃ obj, handlers w' !! handler = Some obj ∧
             getWindow obj = event (xcookie_data e).
Proof.
  intros Hwf Hret.
  destruct (processEventQueue_returned fuel arrivals s w r w' Hret)
    as (_ & c & _ & _ & _ & _ & Hdel & _ & Hheap & _).
  exists (omap (dispatch s) c). split; [exact Hdel |].
  intros handler e Hin.
  apply list_elem_of_omap in Hin as (e0 & _ & Hd).
  apply dispatch_Some in Hd as (He & _ & _ & Hreg). cbn in He, Hreg. subst e0.
  rewrite Hheap. exact (Hwf _ _ Hreg).
Qed.

Lemma processEventQueue_forwards_to_live_handlers_witness :
  registry_wf sample_system (sample_world mixed_queue) ∧
  processEventQueue 4 [] sample_system (sample_world mixed_queue)
    = Returned OK mixed_queue_final ∧
  ∃ obj, handlers mixed_queue_final !! 100%N = Some obj ∧ getWindow obj = 7%N.
Proof.
  assert (H1 : registry_wf sample_system (sample_world mixed_queue))
    by exact sample_registry_wf.
  assert (H2 : processEventQueue 4 [] sample_system (sample_world mixed_queue)
               = Returned OK mixed_queue_final) by (vm_compute; reflexivity).
  destruct (processEventQueue_forwards_to_live_handlers 4 [] sample_system
              (sample_world mixed_queue) mixed_queue_final OK H1 H2)
    as (forwarded & Hdel & Hlive).
  split; [exact H1 |]. split; [exact H2 |].
  apply (Hlive 100%N (generic_event 131 7%N)).
  assert (Hfw : forwarded = [(100%N, generic_event 131 7%N)]).
  { cbn in Hdel. symmetry. exact Hdel. }
  rewrite Hfw. apply list_elem_of_singleton. reflexivity.
Defined.

(** X9. [destroyHandler] finds the entry to erase by the handler's
    recorded window, not by the handler: given a live handler that records
    a window registered for another handler, it erases that other
    handler's entry and releases the handler it was given; the other
    handler stays live and is no longer found under the window. *)
Theorem destroyHandler_erases_by_window
    (handler other : Ptr) (obj obj' : PointerHandler)
    (s : PointerSystem) (w : World) :
  handlers w !! handler = Some obj →
  getHandler (getWindow obj) s = Some other →
  other ≠ handler →
  handlers w !! other = Some obj' →
  ∃ s' w',
    destroyHandler handler s w = Some (OK, s', w') ∧
    getHandler (getWindow obj) s' = None ∧
    handlers w' !! handler = None ∧
    handlers w' !! other = Some obj'.
Proof.
  intros Hlive Hentry Hne Hother. unfold getHandler in Hentry.
  unfold destroyHandler, delete_handler, getHandler. rewrite Hlive, Hentry.
  eexists _, _. split; [reflexivity |]. cbn.
  split; [apply lookup_delete_eq |].
  split; [apply lookup_delete_eq |].
  rewrite lookup_delete_ne by congruence. exact Hother.
Qed.

Lemma destroyHandler_erases_by_window_witness :
  handlers world_with_foreign_handler !! 101%N = Some sample_handler ∧
  getHandler (getWindow sample_handler) sample_system = Some 100%N ∧
  100%N ≠ 101%N ∧
  handlers world_with_foreign_handler !! 100%N = Some sample_handler ∧
  ∃ s' w',
    destroyHandler 101%N sample_system world_with_foreign_handler
      = Some (OK, s', w') ∧
    getHandler 7%N s' = None ∧
    handlers w' !! 100%N = Some sample_handler.
Proof.
  assert (H1 : handlers world_with_foreign_handler !! 101%N = Some sample_handler)
    by reflexivity.
  assert (H2 : getHandler (getWindow sample_handler) sample_system = Some 100%N)
    by reflexivity.
  assert (H3 : 100%N ≠ 101%N) by lia.
  assert (H4 : handlers world_with_foreign_handler !! 100%N = Some sample_handler)
    by reflexivity.
  destruct (destroyHandler_erases_by_window 101%N 100%N sample_handler
              sample_handler sample_system world_with_foreign_handler H1 H2 H3 H4)
    as (s' & w' & Hrun & Hgone & _ & Hleak).
  split; [exact H1 |]. split; [exact H2 |]. split; [exact H3 |]. split; [exact H4 |].
  exists s', w'. split; [exact Hrun |]. split; [exact Hgone | exact Hleak].
Defined.

(** The destructor's loop over a well-formed registry releases each
    registered handler once. *)
Lemma delete_handlers_fold (m : gmap Window Ptr) (w : World) :
  (∀ k p, m !! k = Some p →
     ∃ obj, handlers w !! p = Some obj ∧ getWindow obj = k) →
  let w' := map_fold (λ _ handler acc, delete_handler handler acc) w m in
  stale_deletes w' = stale_deletes w ∧
  (∀ k p, m !! k = Some p → handlers w' !! p = None) ∧
  (∀ p, (∀ k, m !! k ≠ Some p) → handlers w' !! p = handlers w !! p).
Proof.
  cbv zeta. revert m.
  apply (map_fold_weak_ind
           (λ r (m : gmap Window Ptr),
              (∀ k p, m !! k = Some p →
                 ∃ obj, handlers w !! p = Some obj ∧ getWindow obj = k) →
              stale_deletes r = stale_deletes w ∧
              (∀ k p, m !! k = Some p → handlers r !! p = None) ∧
              (∀ p, (∀ k, m !! k ≠ Some p) → handlers r !! p = handlers w !! p))).
  - intros _. split; [reflexivity |]. split; [| reflexivity].
    intros k p Hk. rewrite lookup_empty in Hk. discriminate.
  - intros i x m r Hi IH Hwf.
    assert (Hwfm : ∀ k p, m !! k = Some p →
              ∃ obj, handlers w !! p = Some obj ∧ getWindow obj = k).
    { intros k p Hk. apply Hwf. rewrite lookup_insert_ne; [exact Hk |].
      intros <-. congruence. }
    destruct (IH Hwfm) as (Hstale & Hgone & Hkept).
    destruct (Hwf i x (lookup_insert_eq m i x)) as (obj & Hx & Hwin).
    assert (Hxm : ∀ k, m !! k ≠ Some x).
    { intros k Hk. destruct (Hwfm k x Hk) as (obj2 & Hx2 & Hwin2).
      assert (k = i) by congruence. subst k. congruence. }
    assert (Hxr : handlers r !! x = Some obj) by (rewrite Hkept; assumption).
    unfold delete_handler. rewrite Hxr. cbn [stale_deletes handlers set_handlers].
    split; [exact Hstale |]. split.
    + intros k p Hk. destruct (decide (k = i)) as [-> | Hki].
      * rewrite lookup_insert_eq in Hk. injection Hk as <-. apply lookup_delete_eq.
      * rewrite lookup_insert_ne in Hk by congruence.
        destruct (decide (p = x)) as [-> | Hpx]; [apply lookup_delete_eq |].
        rewrite lookup_delete_ne by congruence. exact (Hgone k p Hk).
    + intros p Hp.
      assert (Hpx : p ≠ x).
      { intros ->. apply (Hp i). apply lookup_insert_eq. }
      rewrite lookup_delete_ne by congruence. apply Hkept.
      intros k Hk. apply (Hp k). rewrite lookup_insert_ne; [exact Hk |].
      intros <-. congruence.
Qed.

(** X10. On a well-formed registry the destructor releases every
    registered handler, each once (no stale release), leaves every other
    handler alone, and closes the connection the object holds and no
    other. *)
Theorem PointerSystem_delete_releases_registered_handlers
    (s : PointerSystem) (w : World) :
  registry_wf s w →
  (∀ window p, getHandler window s = Some p →
     handlers (PointerSystem_delete s w) !! p = None) ∧
  (∀ p, ¬ registered s p →
     handlers (PointerSystem_delete s w) !! p = handlers w !! p) ∧
  stale_deletes (PointerSystem_delete s w) = stale_deletes w ∧
  displays (PointerSystem_delete s w) = displays w ∖ held s ∧
  arrays (PointerSystem_delete s w) = arrays w.
Proof.
  intros Hwf.
  destruct (delete_handlers_fold (mPointerHandlers s) w Hwf) as (Hstale & Hgone & Hkept).
  destruct (delete_handlers_frame (mPointerHandlers s) w) as (_ & _ & Harr & _).
  cbv zeta in Hstale, Hgone, Hkept, Harr.
  split; [| split; [| split; [| split; [apply PointerSystem_delete_displays |]]]].
  - intros window p Hp. unfold PointerSystem_delete.
    destruct (mDisplay s); cbn; exact (Hgone window p Hp).
  - intros p Hp. unfold PointerSystem_delete.
    assert (Hnot : ∀ k, mPointerHandlers s !! k ≠ Some p).
    { intros k Hk. apply Hp. exists k. exact Hk. }
    destruct (mDisplay s); cbn; exact (Hkept p Hnot).
  - unfold PointerSystem_delete. destruct (mDisplay s); cbn; exact Hstale.
  - unfold PointerSystem_delete. destruct (mDisplay s); cbn; exact Harr.
Qed.

Lemma PointerSystem_delete_releases_registered_handlers_witness :
  registry_wf sample_system (sample_world []) ∧
  handlers (PointerSystem_delete sample_system (sample_world [])) !! 100%N = None ∧
  stale_deletes (PointerSystem_delete sample_system (sample_world [])) = [].
Proof.
  destruct (PointerSystem_delete_releases_registered_handlers sample_system
              (sample_world []) sample_registry_wf) as (Hgone & _ & Hstale & _).
  split; [exact sample_registry_wf |].
  split; [apply (Hgone 7%N); reflexivity | exact Hstale].
Defined.

(** * Further properties of the event queue *)

Lemma drained_after_drain s arrivals w c w' :
  drained s arrivals w c w' → w' = after_drain s c w.
Proof.
  destruct w'. unfold drained, after_drain. cbn.
  intros (-> & -> & _ & -> & -> & -> & -> & -> & ->). reflexivity.
Qed.

Lemma processEventQueue_quiet_run fuel s w :
  length (queue w) < fuel →
  processEventQueue fuel [] s w = Returned OK (after_drain s (queue w) w).
Proof.
  intros Hfuel.
  destruct (processEventQueue_total fuel [] s w) as (c & w' & Hrun & Hdr).
  { cbn. lia. }
  rewrite Hrun. f_equal.
  assert (Hc : c = queue w).
  { destruct Hdr as (_ & _ & Hc & _). rewrite take_nil in Hc. cbn in Hc.
    rewrite app_nil_r in Hc. exact Hc. }
  rewrite <- Hc. exact (drained_after_drain s [] w c w' Hdr).
Qed.

(** X11. When nothing arrives during the call, [processEventQueue] takes
    exactly the events queued at entry, in queue order: it returns [OK]
    with the queue empty, having forwarded the routed events and warned
    about the routing misses among them, in that order. *)
Theorem processEventQueue_without_arrivals
    (fuel : nat) (s : PointerSystem) (w : World) :
  length (queue w) < fuel →
  ∃ w',
    processEventQueue fuel [] s w = Returned OK w' ∧
    queue w' = [] ∧
    taken w' = taken w ++ queue w ∧
    events_consumed w (processEventQueue fuel [] s w) = Some (length (queue w)) ∧
    delivered w' = delivered w ++ omap (dispatch s) (queue w) ∧
    messages w' =
      messages w ++ map (miss_warning s) (List.filter (routing_miss s) (queue w)).
Proof.
  intros Hfuel. rewrite (processEventQueue_quiet_run fuel s w Hfuel).
  eexists. split; [reflexivity |]. cbn.
  split; [reflexivity |]. split; [reflexivity |].
  split; [rewrite length_app; f_equal; lia |].
  split; reflexivity.
Qed.

Lemma processEventQueue_without_arrivals_witness :
  length (queue (sample_world mixed_queue)) < 4 ∧
  ∃ w',
    processEventQueue 4 [] sample_system (sample_world mixed_queue)
      = Returned OK w' ∧
    taken w' = mixed_queue.
Proof.
  assert (H1 : length (queue (sample_world mixed_queue)) < 4) by (simpl; lia).
  destruct (processEventQueue_without_arrivals 4 sample_system
              (sample_world mixed_queue) H1) as (w' & Hrun & _ & Htk & _).
  split; [exact H1 |]. exists w'. split; [exact Hrun | exact Htk].
Defined.

Lemma classify_events (s : PointerSystem) (c : list XEvent) :
  length c =
    length (List.filter (λ e, negb (extension_event s e)) c)
    + length (List.filter (routing_miss s) c)
    + length (omap (dispatch s) c).
Proof.
  induction c as [| e c IH]; [reflexivity |].
  cbn [List.filter omap list_omap length].
  unfold routing_miss at 1. unfold dispatch at 1.
  destruct (extension_event s e); cbn [negb andb].
  - destruct (mPointerHandlers s !! event (xcookie_data e)) as [h |] eqn:Hreg.
    + rewrite bool_decide_eq_false_2 by discriminate. cbn. lia.
    + rewrite bool_decide_eq_true_2 by reflexivity. cbn. lia.
  - cbn. lia.
Qed.

(** X12. A completed call accounts for every event it took exactly once:
    each is either ignored because it is not an extension event, or
    answered by one warning, or forwarded to one handler. *)
Theorem processEventQueue_accounts_for_every_event
    (fuel : nat) (arrivals : list (list XEvent)) (s : PointerSystem)
    (w w' : World) (r : Result) :
  processEventQueue fuel arrivals s w = Returned r w' →
  ∃ c,
    taken w' = taken w ++ c ∧
    length c =
      length (List.filter (λ e, negb (extension_event s e)) c)
      + (length (messages w') - length (messages w))
      + (length (delivered w') - length (delivered w)).
Proof.
  intros Hret.
  destruct (processEventQueue_returned fuel arrivals s w r w' Hret)
    as (_ & c & _ & Htk & _ & Hmsg & Hdel & _).
  exists c. split; [exact Htk |].
  rewrite Hmsg, Hdel, !length_app, length_map.
  rewrite (classify_events s c) at 1. lia.
Qed.

Lemma processEventQueue_accounts_for_every_event_witness :
  processEventQueue 4 [] sample_system (sample_world mixed_queue)
    = Returned OK mixed_queue_final ∧
  ∃ c,
    taken mixed_queue_final = c ∧
    length c =
      length (List.filter (λ e, negb (extension_event sample_system e)) c) + 0 + 1.
Proof.
  assert (H1 : processEventQueue 4 [] sample_system (sample_world mixed_queue)
               = Returned OK mixed_queue_final) by (vm_compute; reflexivity).
  destruct (processEventQueue_accounts_for_every_event 4 [] sample_system
              (sample_world mixed_queue) mixed_queue_final OK H1) as (c & Htk & Hlen).
  split; [exact H1 |]. exists c. split; [exact Htk | exact Hlen].
Defined.

(** X13. [processEventQueue] only takes events, sends warnings and
    forwards: a completed call leaves the open connections, the live
    handlers, the window arrays and the record of stale releases as they
    were. *)
Theorem processEventQueue_frame
    (fuel : nat) (arrivals : list (list XEvent)) (s : PointerSystem)
    (w w' : World) (r : Result) :
  processEventQueue fuel arrivals s w = Returned r w' →
  displays w' = displays w ∧
  handlers w' = handlers w ∧
  arrays w' = arrays w ∧
  stale_deletes w' = stale_deletes w ∧
  Forall (λ m, severity m = MessageType.WARNING ∧ sink m = mMessageCallback s)
         (drop (length (messages w)) (messages w')).
Proof.
  intros Hret.
  destruct (processEventQueue_returned fuel arrivals s w r w' Hret)
    as (_ & c & _ & _ & _ & Hmsg & _ & Hd & Hh & Ha & Hs).
  repeat (split; [assumption |]).
  rewrite Hmsg, drop_app_length.
  apply Forall_forall. intros m Hin.
  apply list_elem_of_In, in_map_iff in Hin as (e & <- & _). split; reflexivity.
Qed.

Lemma processEventQueue_frame_witness :
  processEventQueue 4 [] sample_system (sample_world mixed_queue)
    = Returned OK mixed_queue_final ∧
  handlers mixed_queue_final = handlers (sample_world mixed_queue) ∧
  displays mixed_queue_final = displays (sample_world mixed_queue).
Proof.
  assert (H1 : processEventQueue 4 [] sample_system (sample_world mixed_queue)
               = Returned OK mixed_queue_final) by (vm_compute; reflexivity).
  destruct (processEventQueue_frame 4 [] sample_system
              (sample_world mixed_queue) mixed_queue_final OK H1)
    as (Hd & Hh & _).
  split; [exact H1 |]. split; [exact Hh | exact Hd].
Defined.

(** X14. A call that returns leaves the queue empty, so a second call
    made before anything else arrives returns [OK] at once and changes
    nothing. *)
Theorem processEventQueue_again_is_noop
    (fuel fuel2 : nat) (arrivals arrivals2 : list (list XEvent))
    (s : PointerSystem) (w w' : World) (r : Result) :
  processEventQueue fuel arrivals s w = Returned r w' →
  0 < fuel2 →
  queue w' = [] ∧
  processEventQueue fuel2 arrivals2 s w' = Returned OK w'.
Proof.
  intros Hret Hfuel.
  destruct (processEventQueue_returned fuel arrivals s w r w' Hret)
    as (_ & c & Hq & _).
  split; [exact Hq |].
  destruct fuel2 as [| f]; [lia |].
  cbn [processEventQueue]. unfold XEventsQueued. rewrite Hq. reflexivity.
Qed.

Lemma processEventQueue_again_is_noop_witness :
  processEventQueue 4 [] sample_system (sample_world mixed_queue)
    = Returned OK mixed_queue_final ∧
  0 < 1 ∧
  processEventQueue 1 [[key_press]] sample_system mixed_queue_final
    = Returned OK mixed_queue_final.
Proof.
  assert (H1 : processEventQueue 4 [] sample_system (sample_world mixed_queue)
               = Returned OK mixed_queue_final) by (vm_compute; reflexivity).
  assert (H2 : 0 < 1) by lia.
  destruct (processEventQueue_again_is_noop 4 1 [] [[key_press]] sample_system
              (sample_world mixed_queue) mixed_queue_final OK H1 H2) as (_ & Hnoop).
  split; [exact H1 |]. split; [exact H2 | exact Hnoop].
Defined.

Lemma after_drain_app s c1 c2 w later :
  after_drain s c2 (enqueue later (after_drain s c1 w))
  = after_drain s (c1 ++ c2) (enqueue later w).
Proof.
  unfold after_drain, enqueue. cbn.
  rewrite List.filter_app, map_app, omap_app, !app_assoc. reflexivity.
Qed.

(** X15. Draining composes: when [later] is read into the queue after a
    call has returned, the next call ends in the very world a single call
    would have reached had [later] been queued behind the others from the
    start. *)
Theorem processEventQueue_two_calls
    (fuel : nat) (s : PointerSystem) (w : World) (later : list XEvent) :
  length (queue w) + length later < fuel →
  ∃ w1 w2,
    processEventQueue fuel [] s w = Returned OK w1 ∧
    processEventQueue fuel [] s (enqueue later w1) = Returned OK w2 ∧
    processEventQueue fuel [] s (enqueue later w) = Returned OK w2.
Proof.
  intros Hfuel.
  eexists _, _.
  split; [apply processEventQueue_quiet_run; lia |].
  split.
  - apply processEventQueue_quiet_run. cbn. lia.
  - rewrite processEventQueue_quiet_run by (cbn; rewrite length_app; lia).
    f_equal. cbn [queue enqueue set_queue after_drain app].
    rewrite (after_drain_app s (queue w) later w later).
    unfold after_drain, enqueue. cbn. reflexivity.
Qed.

Lemma processEventQueue_two_calls_witness :
  length (queue (sample_world mixed_queue)) + length queue_with_miss < 6 ∧
  ∃ w1 w2,
    processEventQueue 6 [] sample_system (sample_world mixed_queue)
      = Returned OK w1 ∧
    processEventQueue 6 [] sample_system (enqueue queue_with_miss w1)
      = Returned OK w2 ∧
    processEventQueue 6 [] sample_system
      (enqueue queue_with_miss (sample_world mixed_queue)) = Returned OK w2.
Proof.
  assert (H1 : length (queue (sample_world mixed_queue))
               + length queue_with_miss < 6) by (simpl; lia).
  split; [exact H1 |].
  exact (processEventQueue_two_calls 6 sample_system (sample_world mixed_queue)
           queue_with_miss H1).
Defined.

(** X16. Events read into the queue while the first event of a call is
    being handled are treated exactly as if they had been queued at entry:
    on a non-empty queue the call ends in the same world either way. *)
Theorem processEventQueue_arrivals_as_if_queued
    (fuel : nat) (s : PointerSystem) (w : World) (extra : list XEvent) :
  queue w ≠ [] →
  length (queue w) + length extra < fuel →
  ∃ w',
    processEventQueue fuel [extra] s w = Returned OK w' ∧
    processEventQueue fuel [] s (enqueue extra w) = Returned OK w' ∧
    taken w' = taken w ++ queue w ++ extra.
Proof.
  intros Hne Hfuel.
  destruct (processEventQueue_total fuel [extra] s w) as (c & w' & Hrun & Hdr).
  { cbn. rewrite app_nil_r. exact Hfuel. }
  assert (Hc : c = queue w ++ extra).
  { destruct Hdr as (_ & _ & Hc & _).
    destruct c as [| e c].
    - cbn in Hc. destruct (queue w); [contradiction | discriminate].
    - rewrite Hc at 1. cbn [length take concat]. rewrite take_nil. cbn.
      rewrite app_nil_r. reflexivity. }
  exists w'. split; [exact Hrun |].
  pose proof (drained_after_drain s [extra] w c w' Hdr) as Hw'. subst c.
  split.
  - rewrite processEventQueue_quiet_run by (cbn; rewrite length_app; lia).
    f_equal. rewrite Hw'. unfold after_drain, enqueue. cbn. reflexivity.
  - rewrite Hw'. reflexivity.
Qed.

Lemma processEventQueue_arrivals_as_if_queued_witness :
  queue (sample_world mixed_queue) ≠ [] ∧
  length (queue (sample_world mixed_queue)) + length queue_with_miss < 6 ∧
  ∃ w',
    processEventQueue 6 [queue_with_miss] sample_system (sample_world mixed_queue)
      = Returned OK w' ∧
    taken w' = mixed_queue ++ queue_with_miss.
Proof.
  assert (H1 : queue (sample_world mixed_queue) ≠ []) by (simpl; discriminate).
  assert (H2 : length (queue (sample_world mixed_queue))
               + length queue_with_miss < 6) by (simpl; lia).
  destruct (processEventQueue_arrivals_as_if_queued 6 sample_system
              (sample_world mixed_queue) queue_with_miss H1 H2)
    as (w' & Hrun & _ & Htk).
  split; [exact H1 |]. split; [exact H2 |].
  exists w'. split; [exact Hrun | exact Htk].
Defined.

(** * Further properties of the window walk *)

(** X17. The walk only appends to the vector it is given: what the vector
    held stays in front, followed by what the walk finds starting from an
    empty vector. *)
Theorem getWindowsOfProcess_walk_appends
    (t : WTree) (pid : N) (windows : list Window) :
  getWindowsOfProcess_walk t pid windows
  = windows ++ getWindowsOfProcess_walk t pid [].
Proof.
  rewrite (getWindowsOfProcess_walk_preorder pid t windows).
  rewrite (getWindowsOfProcess_walk_preorder pid t []). reflexivity.
Qed.

(** X18. No window is attributed to two processes: on a hierarchy whose
    visited windows are distinct, the walks for two different process ids
    have no window in common. *)
Theorem getWindowsOfProcess_walk_disjoint
    (t : WTree) (pid1 pid2 : N) (x : Window) :
  NoDup (map fst (preorder t)) →
  pid1 ≠ pid2 →
  x ∈ getWindowsOfProcess_walk t pid1 [] →
  x ∉ getWindowsOfProcess_walk t pid2 [].
Proof.
  intros Hnd Hne H1 H2.
  rewrite getWindowsOfProcess_walk_preorder in H1, H2. cbn [app] in H1, H2.
  apply owned_by_elem in H1, H2.
  pose proof (NoDup_fst_functional _ x _ _ Hnd H1 H2) as Heq.
  congruence.
Qed.

Lemma getWindowsOfProcess_walk_disjoint_witness :
  NoDup (map fst (preorder sample_tree)) ∧
  7%N ≠ 9%N ∧
  11%N ∈ getWindowsOfProcess_walk sample_tree 7 [] ∧
  11%N ∉ getWindowsOfProcess_walk sample_tree 9 [].
Proof.
  assert (H1 : NoDup (map fst (preorder sample_tree))).
  { apply (bool_decide_unpack _). vm_compute. exact I. }
  assert (H2 : 7%N ≠ 9%N) by lia.
  assert (H3 : 11%N ∈ getWindowsOfProcess_walk sample_tree 7 []).
  { apply (bool_decide_unpack _). vm_compute. exact I. }
  split; [exact H1 |]. split; [exact H2 |]. split; [exact H3 |].
  exact (getWindowsOfProcess_walk_disjoint sample_tree 7 9 11 H1 H2 H3).
Defined.

Lemma preorder_all_windows (t : WTree) :
  ∀ x q, (x, q) ∈ preorder t → x ∈ all_windows t.
Proof.
  induction t as [window prop tree_ok childWindows IH] using WTree_forall_ind.
  intros x q. cbn [preorder all_windows]. rewrite !elem_of_cons.
  intros [[= -> ->] | Hin]; [left; reflexivity | right].
  destruct tree_ok; [| inversion Hin].
  apply list_elem_of_In, in_flat_map in Hin as (child & Hchild & Hin).
  apply list_elem_of_In, in_flat_map. exists child. split; [exact Hchild |].
  apply list_elem_of_In.
  rewrite Forall_forall in IH.
  apply (IH child (proj2 (list_elem_of_In _ _) Hchild) x q).
  apply list_elem_of_In, Hin.
Qed.

Lemma preorder_length (t : WTree) : length (preorder t) ≤ length (all_windows t).
Proof.
  induction t as [window prop tree_ok childWindows IH] using WTree_forall_ind.
  cbn [preorder all_windows length]. apply le_n_S.
  destruct tree_ok; [| cbn; lia].
  induction IH as [| child rest Hchild _ IHrest]; cbn; [lia |].
  rewrite !length_app. lia.
Qed.

(** X19. The walk reports windows of the hierarchy only, and no more of
    them than the hierarchy has: every window it returns occurs in the
    hierarchy, and the result is at most as long as the list of all
    windows. *)
Theorem getWindowsOfProcess_walk_within_hierarchy (t : WTree) (pid : N) :
  (∀ x, x ∈ getWindowsOfProcess_walk t pid [] → x ∈ all_windows t) ∧
  length (getWindowsOfProcess_walk t pid []) ≤ length (all_windows t).
Proof.
  rewrite getWindowsOfProcess_walk_preorder. cbn [app]. split.
  - intros x Hin. apply owned_by_elem in Hin.
    exact (preorder_all_windows t x _ Hin).
  - rewrite length_map.
    etransitivity; [apply List.filter_length_le | apply preorder_length].
Qed.

(** * Further properties of the window arrays *)

(** Releasing the array just allocated undoes the allocation. *)
Lemma free_new_array (result : list Window) (s : PointerSystem) (w : World) :
  freeWindowsOfProcess (new_address (arrays w)) s
    (set_arrays (<[new_address (arrays w) := result]> (arrays w)) w)
  = Some (OK, w).
Proof.
  pose proof (new_address_not_null (arrays w)) as Hbuf.
  pose proof (new_address_not_live (arrays w)) as Hfresh.
  unfold freeWindowsOfProcess, delete_array.
  destruct (N.eqb_spec (new_address (arrays w)) NULL) as [Heq | _]; [contradiction |].
  cbn [arrays set_arrays]. rewrite lookup_insert_eq.
  rewrite set_arrays_same by (apply delete_insert_id, Hfresh). reflexivity.
Qed.

(** X20. [getWindowsOfProcess] followed by [freeWindowsOfProcess] on the
    array it handed out leaves the world exactly as it was. *)
Theorem getWindowsOfProcess_then_free
    (srv : WTree) (pid : N) (windows : Ptr) (s : PointerSystem) (w : World) :
  windows ≠ NULL →
  ∃ buffer n w1,
    getWindowsOfProcess srv pid windows s w = (OK, Some (buffer, n), w1) ∧
    arrays w1 !! buffer = Some (getWindowsOfProcess_walk srv pid []) ∧
    freeWindowsOfProcess buffer s w1 = Some (OK, w).
Proof.
  intros Hnn.
  pose proof (getWindowsOfProcess_run srv pid windows s w Hnn) as Hrun.
  cbv zeta in Hrun.
  eexists _, _, _. split; [exact Hrun |].
  split.
  - cbn. rewrite lookup_insert_eq, getWindowsOfProcess_walk_preorder. reflexivity.
  - apply free_new_array.
Qed.

Lemma getWindowsOfProcess_then_free_witness :
  500%N ≠ NULL ∧
  ∃ buffer n w1,
    getWindowsOfProcess sample_tree 7 500 sample_system (sample_world [])
      = (OK, Some (buffer, n), w1) ∧
    freeWindowsOfProcess buffer sample_system w1 = Some (OK, sample_world []).
Proof.
  assert (H1 : 500%N ≠ NULL) by (unfold NULL; lia).
  destruct (getWindowsOfProcess_then_free sample_tree 7 500 sample_system
              (sample_world []) H1) as (buffer & n & w1 & Hrun & _ & Hfree).
  split; [exact H1 |]. exists buffer, n, w1. split; [exact Hrun | exact Hfree].
Defined.

(** X21. Arrays handed out and not yet freed never alias: two successive
    calls return different buffers, each holding the result of its own
    walk after both calls, and every array that was live before is still
    live with its content. *)
Theorem getWindowsOfProcess_twice_distinct_buffers
    (srv1 srv2 : WTree) (pid1 pid2 : N) (windows1 windows2 : Ptr)
    (s : PointerSystem) (w : World) :
  windows1 ≠ NULL →
  windows2 ≠ NULL →
  ∃ b1 n1 w1 b2 n2 w2,
    getWindowsOfProcess srv1 pid1 windows1 s w = (OK, Some (b1, n1), w1) ∧
    getWindowsOfProcess srv2 pid2 windows2 s w1 = (OK, Some (b2, n2), w2) ∧
    b1 ≠ b2 ∧
    arrays w2 !! b1 = Some (getWindowsOfProcess_walk srv1 pid1 []) ∧
    arrays w2 !! b2 = Some (getWindowsOfProcess_walk srv2 pid2 []) ∧
    (∀ p l, arrays w !! p = Some l → arrays w2 !! p = Some l).
Proof.
  intros Hnn1 Hnn2.
  pose proof (getWindowsOfProcess_run srv1 pid1 windows1 s w Hnn1) as Hrun1.
  cbv zeta in Hrun1.
  pose proof (new_address_not_live (arrays w)) as Hfresh1.
  set (b1 := new_address (arrays w)) in *.
  set (r1 := map fst (List.filter (owned_by pid1) (preorder srv1))) in *.
  set (w1 := set_arrays (<[b1 := r1]> (arrays w)) w) in *.
  pose proof (getWindowsOfProcess_run srv2 pid2 windows2 s w1 Hnn2) as Hrun2.
  cbv zeta in Hrun2.
  pose proof (new_address_not_live (arrays w1)) as Hfresh2.
  set (b2 := new_address (arrays w1)) in *.
  assert (Hne : b1 ≠ b2).
  { intros Heq. rewrite <- Heq in Hfresh2. cbn in Hfresh2.
    rewrite lookup_insert_eq in Hfresh2. discriminate. }
  eexists b1, _, w1, b2, _, _. split; [exact Hrun1 |]. split; [exact Hrun2 |].
  split; [exact Hne |]. cbn [arrays set_arrays].
  split.
  { rewrite lookup_insert_ne by congruence. cbn. rewrite lookup_insert_eq.
    rewrite getWindowsOfProcess_walk_preorder. reflexivity. }
  split.
  { rewrite lookup_insert_eq, getWindowsOfProcess_walk_preorder. reflexivity. }
  intros p l Hp.
  assert (p ≠ b1) by (intros ->; congruence).
  assert (p ≠ b2).
  { intros ->. cbn in Hfresh2. rewrite lookup_insert_ne in Hfresh2 by congruence.
    congruence. }
  rewrite lookup_insert_ne by congruence. cbn.
  rewrite lookup_insert_ne by congruence. exact Hp.
Qed.

Lemma getWindowsOfProcess_twice_distinct_buffers_witness :
  500%N ≠ NULL ∧
  ∃ b1 n1 w1 b2 n2 w2,
    getWindowsOfProcess sample_tree 7 500 sample_system (sample_world [])
      = (OK, Some (b1, n1), w1) ∧
    getWindowsOfProcess sample_tree 9 500 sample_system w1
      = (OK, Some (b2, n2), w2) ∧
    b1 ≠ b2.
Proof.
  assert (H1 : 500%N ≠ NULL) by (unfold NULL; lia).
  destruct (getWindowsOfProcess_twice_distinct_buffers sample_tree sample_tree
              7 9 500 500 sample_system (sample_world []) H1 H1)
    as (b1 & n1 & w1 & b2 & n2 & w2 & Hrun1 & Hrun2 & Hne & _).
  split; [exact H1 |]. exists b1, n1, w1, b2, n2, w2.
  split; [exact Hrun1 |]. split; [exact Hrun2 | exact Hne].
Defined.

(** * Further properties of the exported interface *)

(** X22. [PointerSystem_Create] followed by [PointerSystem_Destroy] on
    the handle leaves no trace but the messages: whatever the outcome of
    the bootstrap, the set of system objects, the open connections, the
    heap and the event queue are what they were before. *)
Theorem PointerSystem_Create_then_Destroy
    (srv : XServer) (messageCallback : Callback) (P : Process) :
  ∃ r system P1 P2,
    PointerSystem_Create srv messageCallback P = (r, Some system, P1) ∧
    PointerSystem_Destroy system P1 = Some (OK, P2) ∧
    systems P2 = systems P ∧
    displays (world P2) = displays (world P) ∧
    handlers (world P2) = handlers (world P) ∧
    arrays (world P2) = arrays (world P) ∧
    stale_deletes (world P2) = stale_deletes (world P) ∧
    queue (world P2) = queue (world P).
Proof.
  pose proof (new_address_not_null (systems P)) as Hnn.
  pose proof (new_address_not_live (systems P)) as Hfresh.
  pose proof (initialize_frame srv (PointerSystem_new messageCallback) (world P))
    as (Hreg & Hh & Ha & Hst & Hq).
  pose proof (initialize_connections srv (PointerSystem_new messageCallback) (world P))
    as (Hdisp & Hdisj).
  destruct (initialize srv (PointerSystem_new messageCallback) (world P))
    as [[r s'] w'] eqn:Hinit.
  cbn [fst snd] in Hreg, Hh, Ha, Hst, Hq, Hdisp, Hdisj.
  unfold PointerSystem_Create. cbn [world systems]. rewrite Hinit.
  set (system := new_address (systems P)) in *.
  eexists r, system, _, _. split; [reflexivity |].
  unfold PointerSystem_Destroy. cbn [systems world].
  destruct (N.eqb_spec system NULL) as [Heq | _]; [contradiction |].
  rewrite lookup_insert_eq. split; [reflexivity |]. cbn [systems world].
  split.
  { rewrite insert_insert_eq, delete_insert_eq. apply delete_id, Hfresh. }
  assert (Hdel : PointerSystem_delete s' w' =
                 match mDisplay s' with
                 | Some d => XCloseDisplay d w'
                 | None => w'
                 end).
  { unfold PointerSystem_delete. rewrite Hreg. cbn. rewrite map_fold_empty.
    reflexivity. }
  split.
  { rewrite PointerSystem_delete_displays, Hdisp.
    apply set_eq. intros x. rewrite elem_of_difference, elem_of_union. split.
    - intros [[Hx | Hx] Hn]; [contradiction | exact Hx].
    - intros Hx. split; [right; exact Hx |]. intros Hheld.
      exact (Hdisj x Hheld Hx). }
  rewrite Hdel. destruct (mDisplay s'); cbn; repeat split; assumption.
Qed.

(** X23. Duplicates are detected per system object: with two live systems
    in which [window] has no entry, [PointerSystem_CreateHandler] for
    [window] gets past the duplicate check on each of them and stores two
    different handler addresses, and only a repeat on the same system is
    rejected with [ERROR_DUPLICATE_ITEM], constructing nothing. *)
Theorem PointerSystem_CreateHandler_per_system
    (init : PointerHandler → PointerSystem → World → Result)
    (a b : Ptr) (sa sb : PointerSystem) (window : Window) (cb : Callback)
    (P : Process) :
  a ≠ b →
  systems P !! a = Some sa →
  systems P !! b = Some sb →
  getHandler window sa = None →
  getHandler window sb = None →
  ∃ r1 h1 P1 r2 h2 P2 P3,
    PointerSystem_CreateHandler init a window cb P = Some (r1, Some h1, P1) ∧
    PointerSystem_CreateHandler init b window cb P1 = Some (r2, Some h2, P2) ∧
    h1 ≠ h2 ∧
    PointerSystem_CreateHandler init a window cb P2
      = Some (ERROR_DUPLICATE_ITEM, None, P3) ∧
    systems P3 = systems P2 ∧
    handlers (world P3) = handlers (world P2).
Proof.
  intros Hab Ha Hb Hna Hnb. unfold getHandler in Hna, Hnb.
  pose proof (createHandler_fresh init window cb sa (world P) Hna) as Hrun1.
  cbv zeta in Hrun1.
  set (h1 := new_address (handlers (world P))) in *.
  set (obj1 := {| hDisplay := mDisplay sa; hWindow := window;
                  hMessageCallback := mMessageCallback sa;
                  hPointerCallback := cb |}) in *.
  set (sa1 := set_mPointerHandlers (<[window := h1]> (mPointerHandlers sa)) sa) in *.
  set (w1 := set_handlers (<[h1 := obj1]> (handlers (world P))) (world P)) in *.
  pose proof (createHandler_fresh init window cb sb w1 Hnb) as Hrun2.
  cbv zeta in Hrun2.
  pose proof (new_address_not_live (handlers w1)) as Hfresh2.
  set (h2 := new_address (handlers w1)) in *.
  assert (Hne : h1 ≠ h2).
  { intros Heq. rewrite <- Heq in Hfresh2. cbn in Hfresh2.
    rewrite lookup_insert_eq in Hfresh2. discriminate. }
  assert (Hdup : mPointerHandlers sa1 !! window = Some h1) by apply lookup_insert_eq.
  eexists _, h1, _, _, h2, _, _.
  split.
  { unfold PointerSystem_CreateHandler. rewrite Ha, Hrun1. reflexivity. }
  split.
  { unfold PointerSystem_CreateHandler. cbn [systems world].
    rewrite lookup_insert_ne by congruence. rewrite Hb, Hrun2. reflexivity. }
  split; [exact Hne |].
  split.
  { unfold PointerSystem_CreateHandler. cbn [systems world].
    rewrite lookup_insert_ne by congruence. rewrite lookup_insert_eq.
    rewrite (createHandler_duplicate init window cb sa1 _ h1 Hdup). reflexivity. }
  cbn [systems world]. split; [| reflexivity].
  apply insert_id. rewrite lookup_insert_ne by congruence. apply lookup_insert_eq.
Qed.

Lemma PointerSystem_CreateHandler_per_system_witness :
  1%N ≠ 2%N ∧
  systems two_systems !! 1%N = Some sample_system ∧
  systems two_systems !! 2%N = Some second_system ∧
  getHandler 8%N sample_system = None ∧
  getHandler 8%N second_system = None ∧
  ∃ r1 h1 P1 r2 h2 P2,
    PointerSystem_CreateHandler always_OK 1 8 2 two_systems = Some (r1, Some h1, P1) ∧
    PointerSystem_CreateHandler always_OK 2 8 2 P1 = Some (r2, Some h2, P2) ∧
    h1 ≠ h2.
Proof.
  assert (H1 : 1%N ≠ 2%N) by lia.
  assert (H2 : systems two_systems !! 1%N = Some sample_system) by reflexivity.
  assert (H3 : systems two_systems !! 2%N = Some second_system) by reflexivity.
  assert (H4 : getHandler 8%N sample_system = None) by reflexivity.
  assert (H5 : getHandler 8%N second_system = None) by reflexivity.
  destruct (PointerSystem_CreateHandler_per_system always_OK 1 2 sample_system
              second_system 8 2 two_systems H1 H2 H3 H4 H5)
    as (r1 & h1 & P1 & r2 & h2 & P2 & P3 & Hrun1 & Hrun2 & Hne & _).
  repeat (split; [assumption |]).
  exists r1, h1, P1, r2, h2, P2. split; [exact Hrun1 |]. split; [exact Hrun2 | exact Hne].
Defined.

(** X24. A handler must be destroyed through the system that registered
    it: [PointerSystem_DestroyHandler] through another live system
    releases the handler and returns [OK], but the owner's registry keeps
    its entry, which now designates a released object, so the owner's
    registry is no longer well formed. *)
Theorem PointerSystem_DestroyHandler_through_other_system
    (a b : Ptr) (sa sb : PointerSystem) (handler : Ptr) (obj : PointerHandler)
    (P : Process) :
  a ≠ b →
  systems P !! a = Some sa →
  systems P !! b = Some sb →
  handlers (world P) !! handler = Some obj →
  getHandler (getWindow obj) sa = Some handler →
  ∃ P',
    PointerSystem_DestroyHandler b handler P = Some (OK, P') ∧
    systems P' !! a = Some sa ∧
    handlers (world P') !! handler = None ∧
    ¬ registry_wf sa (world P').
Proof.
  intros Hab Ha Hb Hlive Hentry.
  unfold PointerSystem_DestroyHandler. rewrite Hb.
  unfold destroyHandler, delete_handler. rewrite Hlive.
  eexists. split; [reflexivity |]. cbn [systems world handlers set_handlers].
  split; [rewrite lookup_insert_ne by congruence; exact Ha |].
  split; [apply lookup_delete_eq |].
  intros Hwf. destruct (Hwf _ _ Hentry) as (obj' & Hdead & _).
  cbn in Hdead. rewrite lookup_delete_eq in Hdead. discriminate.
Qed.

Lemma PointerSystem_DestroyHandler_through_other_system_witness :
  1%N ≠ 2%N ∧
  systems two_systems !! 1%N = Some sample_system ∧
  systems two_systems !! 2%N = Some second_system ∧
  handlers (world two_systems) !! 100%N = Some sample_handler ∧
  getHandler (getWindow sample_handler) sample_system = Some 100%N ∧
  ∃ P',
    PointerSystem_DestroyHandler 2 100 two_systems = Some (OK, P') ∧
    handlers (world P') !! 100%N = None.
Proof.
  assert (H1 : 1%N ≠ 2%N) by lia.
  assert (H2 : systems two_systems !! 1%N = Some sample_system) by reflexivity.
  assert (H3 : systems two_systems !! 2%N = Some second_system) by reflexivity.
  assert (H4 : handlers (world two_systems) !! 100%N = Some sample_handler)
    by reflexivity.
  assert (H5 : getHandler (getWindow sample_handler) sample_system = Some 100%N)
    by reflexivity.
  destruct (PointerSystem_DestroyHandler_through_other_system 1 2 sample_system
              second_system 100 sample_handler two_systems H1 H2 H3 H4 H5)
    as (P' & Hrun & _ & Hdead & _).
  repeat (split; [assumption |]).
  exists P'. split; [exact Hrun | exact Hdead].
Defined.

Lemma ulong_of_int_nonneg (ulong_bits processID : Z) :
  (0 ≤ processID < 2 ^ 31)%Z → (32 ≤ ulong_bits)%Z →
  ulong_of_int ulong_bits processID = Z.to_N processID.
Proof.
  intros Hrange Hbits. unfold ulong_of_int. f_equal.
  apply Z.mod_small.
  assert (2 ^ 31 ≤ 2 ^ ulong_bits)%Z by (apply Z.pow_le_mono_r; lia). lia.
Qed.

Lemma ulong_of_int_negative (ulong_bits processID : Z) :
  (- 2 ^ 31 ≤ processID < 0)%Z → (32 ≤ ulong_bits)%Z →
  (2 ^ 31 ≤ ulong_of_int ulong_bits processID)%N.
Proof.
  intros Hrange Hbits. unfold ulong_of_int.
  assert (Hpow : (2 ^ 32 ≤ 2 ^ ulong_bits)%Z) by (apply Z.pow_le_mono_r; lia).
  assert (Hmod : (processID mod 2 ^ ulong_bits = processID + 2 ^ ulong_bits)%Z).
  { symmetry. apply (Z.mod_unique_pos _ _ (-1)); lia. }
  rewrite Hmod. change (2 ^ 31)%N with (Z.to_N (2 ^ 31)).
  apply Z2N.inj_le; lia.
Qed.

Lemma Process_eta (P : Process) :
  {| systems := systems P; world := world P |} = P.
Proof. destruct P. reflexivity. Qed.

(** X25. Through a live system handle, [PointerSystem_GetWindowsOfProcess]
    with a non-negative [processID] hands out a new array holding the walk
    for that process id, and [XFreeWindowsOfProcess] on that array through
    the same handle returns [OK] and puts the process back in the state it
    was in. *)
Theorem PointerSystem_GetWindowsOfProcess_then_XFree
    (ulong_bits : Z) (srv : WTree) (system : Ptr) (s : PointerSystem)
    (processID : Z) (windows : Ptr) (P : Process) :
  (32 ≤ ulong_bits)%Z →
  (0 ≤ processID < 2 ^ 31)%Z →
  systems P !! system = Some s →
  windows ≠ NULL →
  ∃ buffer n P1,
    PointerSystem_GetWindowsOfProcess ulong_bits srv system processID windows P
      = Some (OK, Some (buffer, n), P1) ∧
    systems P1 = systems P ∧
    arrays (world P1) !! buffer
      = Some (getWindowsOfProcess_walk srv (Z.to_N processID) []) ∧
    XFreeWindowsOfProcess system buffer P1 = Some (OK, P).
Proof.
  intros Hbits Hrange Hsys Hnn.
  pose proof (getWindowsOfProcess_run srv (Z.to_N processID) windows s (world P) Hnn)
    as Hrun.
  cbv zeta in Hrun.
  eexists _, _, {| systems := systems P; world := _ |}.
  unfold PointerSystem_GetWindowsOfProcess, XFreeWindowsOfProcess.
  rewrite Hsys, (ulong_of_int_nonneg ulong_bits processID Hrange Hbits), Hrun.
  split; [reflexivity |]. split; [reflexivity |].
  split.
  { cbn. rewrite lookup_insert_eq, getWindowsOfProcess_walk_preorder. reflexivity. }
  cbn [systems world]. rewrite Hsys, free_new_array, Process_eta. reflexivity.
Qed.

Lemma PointerSystem_GetWindowsOfProcess_then_XFree_witness :
  (32 ≤ 64)%Z ∧
  (0 ≤ 7 < 2 ^ 31)%Z ∧
  systems two_systems !! 1%N = Some sample_system ∧
  500%N ≠ NULL ∧
  ∃ buffer n P1,
    PointerSystem_GetWindowsOfProcess 64 sample_tree 1 7 500 two_systems
      = Some (OK, Some (buffer, n), P1) ∧
    arrays (world P1) !! buffer = Some [11%N; 13%N] ∧
    XFreeWindowsOfProcess 1 buffer P1 = Some (OK, two_systems).
Proof.
  assert (H1 : (32 ≤ 64)%Z) by lia.
  assert (H2 : (0 ≤ 7 < 2 ^ 31)%Z) by lia.
  assert (H3 : systems two_systems !! 1%N = Some sample_system) by reflexivity.
  assert (H4 : 500%N ≠ NULL) by (unfold NULL; lia).
  destruct (PointerSystem_GetWindowsOfProcess_then_XFree 64 sample_tree 1
              sample_system 7 500 two_systems H1 H2 H3 H4)
    as (buffer & n & P1 & Hrun & _ & Hbuf & Hfree).
  repeat (split; [assumption |]).
  exists buffer, n, P1. split; [exact Hrun |]. split; [exact Hbuf | exact Hfree].
Defined.

Lemma owned_by_none (pid : N) (l : list (Window * PropReply)) :
  (∀ x v, (x, PropValue v) ∈ l → v ≠ pid) →
  List.filter (owned_by pid) l = [].
Proof.
  induction l as [| [x q] l IH]; intros Hno; [reflexivity |].
  cbn [List.filter]. unfold owned_by at 1. cbn [snd].
  rewrite IH by (intros y v Hin; apply (Hno y v); right; exact Hin).
  destruct q as [| | v]; try reflexivity.
  destruct (N.eqb_spec v pid) as [-> | _]; [| reflexivity].
  exfalso. apply (Hno x pid); [left | reflexivity].
Qed.

(** X26. A negative [processID] resolves to no window: converted to
    [unsigned long] it is at least 2^31, so on a hierarchy whose
    process-id properties all lie below 2^31 the exported call returns
    [OK] with an empty array and a count of zero. *)
Theorem PointerSystem_GetWindowsOfProcess_negative
    (ulong_bits : Z) (srv : WTree) (system : Ptr) (s : PointerSystem)
    (processID : Z) (windows : Ptr) (P : Process) :
  (32 ≤ ulong_bits)%Z →
  (- 2 ^ 31 ≤ processID < 0)%Z →
  pids_below (2 ^ 31) srv →
  systems P !! system = Some s →
  windows ≠ NULL →
  ∃ buffer P1,
    PointerSystem_GetWindowsOfProcess ulong_bits srv system processID windows P
      = Some (OK, Some (buffer, 0%Z), P1) ∧
    arrays (world P1) !! buffer = Some [].
Proof.
  intros Hbits Hrange Hpids Hsys Hnn.
  pose proof (ulong_of_int_negative ulong_bits processID Hrange Hbits) as Hpid.
  set (pid := ulong_of_int ulong_bits processID) in *.
  pose proof (getWindowsOfProcess_run srv pid windows s (world P) Hnn) as Hrun.
  cbv zeta in Hrun.
  rewrite owned_by_none in Hrun.
  2:{ intros x v Hin Heq. pose proof (Hpids x v Hin). lia. }
  unfold PointerSystem_GetWindowsOfProcess. fold pid. rewrite Hsys, Hrun.
  eexists _, _. split; [reflexivity |]. cbn. apply lookup_insert_eq.
Qed.

Lemma PointerSystem_GetWindowsOfProcess_negative_witness :
  (32 ≤ 64)%Z ∧
  (- 2 ^ 31 ≤ -1 < 0)%Z ∧
  pids_below (2 ^ 31) sample_tree ∧
  systems two_systems !! 1%N = Some sample_system ∧
  500%N ≠ NULL ∧
  ∃ buffer P1,
    PointerSystem_GetWindowsOfProcess 64 sample_tree 1 (-1) 500 two_systems
      = Some (OK, Some (buffer, 0%Z), P1) ∧
    arrays (world P1) !! buffer = Some [].
Proof.
  assert (H1 : (32 ≤ 64)%Z) by lia.
  assert (H2 : (- 2 ^ 31 ≤ -1 < 0)%Z) by lia.
  assert (H3 : pids_below (2 ^ 31) sample_tree).
  { intros x v Hin. apply list_elem_of_In in Hin. cbn in Hin.
    destruct Hin as [H | [H | [H | [H | []]]]]; try discriminate H;
      injection H as _ <-; lia. }
  assert (H4 : systems two_systems !! 1%N = Some sample_system) by reflexivity.
  assert (H5 : 500%N ≠ NULL) by (unfold NULL; lia).
  repeat (split; [assumption |]).
  exact (PointerSystem_GetWindowsOfProcess_negative 64 sample_tree 1 sample_system
           (-1) 500 two_systems H1 H2 H3 H4 H5).
Defined.

(** X27. The exported functions fit together: after a successful
    [PointerSystem_Create] and a [PointerSystem_CreateHandler] for
    [window] on the handle it stored, an event of the generic category
    that carries the opcode the server announced and targets [window] is
    forwarded by [PointerSystem_ProcessEventQueue] to the handler address
    [PointerSystem_CreateHandler] stored, without any warning. *)
Theorem created_handler_receives_its_events
    (init : PointerHandler → PointerSystem → World → Result)
    (srv : XServer) (messageCallback : Callback) (window : Window)
    (cb : Callback) (P : Process) (e : XEvent) :
  bootstrap_succeeds srv →
  queue (world P) = [] →
  type e = GenericEvent →
  xcookie_extension e = ext_opcode srv →
  event (xcookie_data e) = window →
  ∃ system P1 r handler P2 w3,
    PointerSystem_Create srv messageCallback P = (OK, Some system, P1) ∧
    PointerSystem_CreateHandler init system window cb P1
      = Some (r, Some handler, P2) ∧
    PointerSystem_ProcessEventQueue 2 [] system
      {| systems := systems P2; world := enqueue [e] (world P2) |}
      = Some (Returned OK w3) ∧
    delivered w3 = delivered (world P) ++ [(handler, e)] ∧
    messages w3 = messages (world P) ∧
    queue w3 = [].
Proof.
  intros Hok Hq Htype Hext Hwin.
  pose proof (initialize_success srv (PointerSystem_new messageCallback) (world P) Hok)
    as Hinit.
  set (s1 := set_mOpcode (ext_opcode srv)
               (set_mDisplay (Some (fresh (displays (world P))))
                  (PointerSystem_new messageCallback))) in *.
  set (w1 := set_displays ({[fresh (displays (world P))]} ∪ displays (world P))
               (world P)) in *.
  assert (Hnone : mPointerHandlers s1 !! window = None) by apply lookup_empty.
  pose proof (createHandler_fresh init window cb s1 w1 Hnone) as Hcreate.
  cbv zeta in Hcreate.
  set (handler := new_address (handlers w1)) in *.
  set (s2 := set_mPointerHandlers (<[window := handler]> (mPointerHandlers s1)) s1) in *.
  match type of Hcreate with _ = (_, _, _, ?w) => set (w2 := w) in * end.
  assert (Hqueue : queue (enqueue [e] w2) = [e]).
  { cbn. rewrite Hq. reflexivity. }
  assert (Hdispatch : dispatch s2 e = Some (handler, e)).
  { unfold dispatch, extension_event. rewrite Htype, Hext, Hwin.
    unfold s2, s1. cbn [mOpcode mPointerHandlers set_mPointerHandlers set_mOpcode].
    rewrite !Z.eqb_refl. cbn [andb].
    rewrite lookup_insert_eq. reflexivity. }
  assert (Hmiss : routing_miss s2 e = false).
  { unfold routing_miss. rewrite Hwin.
    unfold s2. cbn [mPointerHandlers set_mPointerHandlers].
    rewrite lookup_insert_eq, bool_decide_eq_false_2 by discriminate.
    apply andb_false_r. }
  eexists _, _, _, handler, _, _.
  split.
  { unfold PointerSystem_Create. cbn [world systems]. rewrite Hinit. reflexivity. }
  split.
  { unfold PointerSystem_CreateHandler. cbn [systems world].
    rewrite lookup_insert_eq, Hcreate. reflexivity. }
  split.
  { unfold PointerSystem_ProcessEventQueue. cbn [systems world].
    rewrite lookup_insert_eq.
    rewrite processEventQueue_quiet_run by (rewrite Hqueue; cbn; lia).
    reflexivity. }
  rewrite Hqueue. unfold after_drain.
  cbn [delivered messages queue omap list_omap List.filter].
  rewrite Hdispatch, Hmiss. cbn.
  split; [reflexivity |]. split; [apply app_nil_r | reflexivity].
Qed.

Lemma created_handler_receives_its_events_witness :
  bootstrap_succeeds server_ready ∧
  queue (world empty_process) = [] ∧
  type (generic_event 131 7%N) = GenericEvent ∧
  xcookie_extension (generic_event 131 7%N) = ext_opcode server_ready ∧
  event (xcookie_data (generic_event 131 7%N)) = 7%N ∧
  ∃ system P1 r handler P2 w3,
    PointerSystem_Create server_ready 1%N empty_process = (OK, Some system, P1) ∧
    PointerSystem_CreateHandler always_OK system 7%N 2%N P1
      = Some (r, Some handler, P2) ∧
    PointerSystem_ProcessEventQueue 2 [] system
      {| systems := systems P2;
         world := enqueue [generic_event 131 7%N] (world P2) |}
      = Some (Returned OK w3) ∧
    delivered w3 = [(handler, generic_event 131 7%N)].
Proof.
  assert (H1 : bootstrap_succeeds server_ready).
  { repeat split. vm_compute. discriminate. }
  assert (H2 : queue (world empty_process) = []) by reflexivity.
  assert (H3 : type (generic_event 131 7%N) = GenericEvent) by reflexivity.
  assert (H4 : xcookie_extension (generic_event 131 7%N) = ext_opcode server_ready)
    by reflexivity.
  assert (H5 : event (xcookie_data (generic_event 131 7%N)) = 7%N) by reflexivity.
  destruct (created_handler_receives_its_events always_OK server_ready 1%N 7%N 2%N
              empty_process (generic_event 131 7%N) H1 H2 H3 H4 H5)
    as (system & P1 & r & handler & P2 & w3 & Hc & Hh & Hp & Hdel & _).
  repeat (split; [assumption |]).
  exists system, P1, r, handler, P2, w3.
  split; [exact Hc |]. split; [exact Hh |]. split; [exact Hp | exact Hdel].
Defined.
